(** * Shallow embedding of [autogen.cache.cache_factory] and of
      [autogen.agentchat.contrib.web_surfer]

    Python values are embedded as follows.
    - [str] is [string]; every [ascii] stands for one character.
    - [int] is [Z]; f-string formatting of an [int] is stdpp's [pretty].
    - [dict] with string keys is [gmap string _]; [k in d] is
      [is_Some (d !! k)].
    - Code that can raise, log or mutate the agent runs in the monad [M]:
      a state-passing function whose answer is [Ok] or [Raise]. The state
      reached when an exception is raised is kept, as Python keeps the
      mutations done before a [raise]. *)

From Stdlib Require Import ZArith Lia String Ascii List.
From stdpp Require Import base option list strings gmap pretty.

Set Warnings "-register-all".
Open Scope Z_scope.

(** ** Python values *)

Inductive pyval :=
  | PNone
  | PBool (b : bool)
  | PInt (z : Z)
  | PStr (s : string)
  | PList (l : list pyval)
  | PDict (d : gmap string pyval).

(** Exceptions the modelled code can raise. *)
Inductive exn :=
  | ImportError (module_name : string)
  | TypeError (msg : string)
  | KeyError (key : string)
  | IndexError (msg : string).

Inductive result (A : Type) :=
  | Ok (a : A)
  | Raise (e : exn).
Arguments Ok {A} a.
Arguments Raise {A} e.

(** ** The state-and-exception monad *)

Definition M (S A : Type) : Type := S -> result A * S.

Definition M_ret_def {S A} (a : A) : M S A := fun s => (Ok a, s).

Definition M_bind_def {S A B} (f : A -> M S B) (m : M S A) : M S B :=
  fun s =>
    match m s with
    | (Ok a, s') => f a s'
    | (Raise e, s') => (Raise e, s')
    end.

#[global] Instance M_ret {S} : MRet (M S) := @M_ret_def S.
#[global] Instance M_bind {S} : MBind (M S) := @M_bind_def S.

Definition raise {S A} (e : exn) : M S A := fun s => (Raise e, s).
Definition get_state {S} : M S S := fun s => (Ok s, s).
Definition modify {S} (f : S -> S) : M S unit := fun s => (Ok tt, f s).

(** A call that answers and changes the state but does not raise. *)
Definition call {S A} (f : S -> A * S) : M S A :=
  fun s => let '(a, s') := f s in (Ok a, s').

(** [try: body except <handles>: handler]. *)
Definition try_except {S A} (body : M S A) (handles : exn -> bool)
    (handler : M S A) : M S A :=
  fun s =>
    match body s with
    | (Ok a, s') => (Ok a, s')
    | (Raise e, s') => if handles e then handler s' else (Raise e, s')
    end.

Definition is_ImportError (e : exn) : bool :=
  match e with ImportError _ => true | _ => false end.

(** ** Python [str] helpers *)

Module PyStr.

(** The line feed and carriage return characters. *)
Definition LF_char : ascii := "010"%char.
Definition CR_char : ascii := "013"%char.
Definition LF : string := String LF_char "".

(** [str(n)] and [f"{n}"] for an [int]. *)
Definition str_of_int (z : Z) : string := pretty z.

(** [len(s)]. *)
Definition len (s : string) : Z := Z.of_nat (String.length s).

(** [bool(s)] for an optional string: [None] and the empty string are
    falsy. *)
Definition truthy (o : option string) : bool :=
  match o with
  | Some (String _ _) => true
  | _ => false
  end.

(** [c.isspace()] on the code points below 256. *)
Definition is_space (c : ascii) : bool :=
  let n := N_of_ascii c in
  ((9 <=? n) && (n <=? 13) || (28 <=? n) && (n <=? 32)
   || (n =? 133) || (n =? 160))%N.

(** [s.lstrip()], [s.rstrip()] and [s.strip()]. *)
Fixpoint lstrip (s : string) : string :=
  match s with
  | String c s' => if is_space c then lstrip s' else s
  | EmptyString => EmptyString
  end.

Fixpoint rstrip (s : string) : string :=
  match s with
  | String c s' =>
      match rstrip s' with
      | EmptyString => if is_space c then EmptyString else String c EmptyString
      | r => String c r
      end
  | EmptyString => EmptyString
  end.

Definition strip (s : string) : string := rstrip (lstrip s).

(** [s.startswith(p)], answering the rest of [s] behind [p]. *)
Fixpoint drop_prefix (p s : string) : option string :=
  match p, s with
  | EmptyString, _ => Some s
  | String a p', String b s' =>
      if Ascii.eqb a b then drop_prefix p' s' else None
  | String _ _, EmptyString => None
  end.

(** [p] is an initial segment of [s]. *)
Definition is_prefix_of (p s : string) : Prop := exists t, s = p +:+ t.

(** [t] occurs in [s]. *)
Definition occurs_in (t s : string) : Prop := exists a b, s = a +:+ t +:+ b.

(** [c in s]. *)
Fixpoint has_char (c : ascii) (s : string) : bool :=
  match s with
  | EmptyString => false
  | String x s' => Ascii.eqb x c || has_char c s'
  end.

(** The class [[\r\n]] of the splitting pattern. *)
Definition is_line_break (c : ascii) : bool :=
  Ascii.eqb c LF_char || Ascii.eqb c CR_char.

(** [re.split(r"([\r\n]+)", s)]: the text between maximal runs of line
    breaks alternating with those runs, which the capturing group keeps in
    the answer. [in_sep] tells whether [cur] is a run of line breaks. *)
Fixpoint re_split_go (in_sep : bool) (cur s : string) : list string :=
  match s with
  | EmptyString => if in_sep then [cur; EmptyString] else [cur]
  | String c s' =>
      if is_line_break c then
        if in_sep then re_split_go true (cur +:+ String c "") s'
        else cur :: re_split_go true (String c "") s'
      else
        if in_sep then cur :: re_split_go false (String c "") s'
        else re_split_go false (cur +:+ String c "") s'
  end.

Definition re_split_line_breaks (s : string) : list string :=
  re_split_go false "" s.

(** [.join] with an empty separator. *)
Definition concat (l : list string) : string :=
  foldr String.append "" l.

(** ** [re.search(r"\[.*?\]\((http.*?)\)", s)]

    The matcher is written for this pattern. [.] is any character but the
    line feed; [*?] takes as few characters as the rest of the pattern
    allows. *)

(** [.*?\)] behind the [http] of the group: the characters up to the
    first closing parenthesis, none of them a line feed. *)
Fixpoint lazy_until_close (s : string) : option string :=
  match s with
  | EmptyString => None
  | String c s' =>
      if Ascii.eqb c ")" then Some EmptyString
      else if Ascii.eqb c LF_char then None
      else String c <$> lazy_until_close s'
  end.

(** [\]\((http.*?)\)] at the head of [s]; answers group 1. *)
Definition link_tail (s : string) : option string :=
  rest ← drop_prefix "](http" s;
  g ← lazy_until_close rest;
  Some ("http" +:+ g).

(** [.*?\]\((http.*?)\)] behind the opening bracket. *)
Fixpoint after_open (s : string) : option string :=
  match link_tail s with
  | Some g => Some g
  | None =>
      match s with
      | String c s' => if Ascii.eqb c LF_char then None else after_open s'
      | EmptyString => None
      end
  end.

(** The whole search: the leftmost position the pattern matches from;
    answers [m.group(1)], or [None] when there is no match. *)
Fixpoint re_search_link (s : string) : option string :=
  match s with
  | EmptyString => None
  | String c s' =>
      match (if Ascii.eqb c "[" then after_open s' else None) with
      | Some g => Some g
      | None => re_search_link s'
      end
  end.

End PyStr.

(** * [autogen/cache/cache_factory.py] *)

Module CacheFactory.

(** [seed: Union[str, int]]. *)
Inductive seed_t :=
  | SeedStr (s : string)
  | SeedInt (z : Z).

(** [f"{seed}"]. *)
Definition format_seed (seed : seed_t) : string :=
  match seed with
  | SeedStr s => s
  | SeedInt z => PyStr.str_of_int z
  end.

(** The three cache classes. Their constructors live in sibling modules
    that the factory imports; a cache handle records the class and the
    arguments the constructor was called with. *)
Inductive cache :=
  | RedisCache (seed : seed_t) (redis_url : string)
  | CosmosDBCache (seed : seed_t) (kwargs : gmap string pyval)
  | DiskCache (path : string).

(** What the factory does besides returning. *)
Inductive event :=
  | Imported (module_name : string)
  | Constructed (c : cache)
  | Warning (msg : string).

(** Which optional client modules can be imported. *)
Record environment := {
  redis_cache_available : bool;
  cosmos_db_cache_available : bool
}.

Definition log := list event.

Definition emit (e : event) : M log unit := modify (fun l => l ++ [e]).

(** [from <module> import <class>]. *)
Definition import_from (available : bool) (module_name : string) : M log unit :=
  if available then emit (Imported module_name)
  else raise (ImportError module_name).

Definition construct (c : cache) : M log cache :=
  emit (Constructed c);; mret c.

Definition logging_warning (msg : string) : M log unit := emit (Warning msg).

Definition required_keys : list string :=
  ["connection_string"; "database_id"; "container_id"].

(** [key in cosmosdb_config]. *)
Definition has_key (d : gmap string pyval) (k : string) : bool :=
  bool_decide (is_Some (d !! k)).

(** [cosmosdb_config and all(key in cosmosdb_config for key in [...])]. *)
Definition cosmos_complete (cosmosdb_config : option (gmap string pyval)) : bool :=
  match cosmosdb_config with
  | None => false
  | Some d => bool_decide (d ≠ ∅) && forallb (has_key d) required_keys
  end.

Definition redis_warning : string :=
  "RedisCache is not available. Checking other cache options. The last fallback is DiskCache.".

Definition cosmos_warning : string :=
  "CosmosDBCache is not available. Fallback to DiskCache.".

(** [CacheFactory.cache_factory]. A branch answers [Some c] when it
    executes [return c] and [None] when control falls through. *)
Definition cache_factory (env : environment) (seed : seed_t)
    (redis_url : option string) (cache_path_root : string)
    (cosmosdb_config : option (gmap string pyval)) : M log cache :=
  r1 ← match redis_url with
       | Some url =>
           if PyStr.truthy redis_url then
             try_except
               (import_from (redis_cache_available env) ".redis_cache";;
                c ← construct (RedisCache seed url);
                mret (Some c))
               is_ImportError
               (logging_warning redis_warning;; mret None)
           else mret None
       | None => mret None
       end;
  match r1 with
  | Some c => mret c
  | None =>
      r2 ← match cosmosdb_config with
           | Some d =>
               if cosmos_complete cosmosdb_config then
                 try_except
                   (import_from (cosmos_db_cache_available env) ".cosmos_db_cache";;
                    c ← construct (CosmosDBCache seed d);
                    mret (Some c))
                   is_ImportError
                   (logging_warning cosmos_warning;; mret None)
               else mret None
           | None => mret None
           end;
      match r2 with
      | Some c => mret c
      | None =>
          construct (DiskCache ("./" +:+ cache_path_root +:+ "/" +:+ format_seed seed))
      end
  end.

(** Running the factory from an empty log. *)
Definition run (m : M log cache) : result cache * log := m [].

(** A cache is disk-backed and rooted at [path]. *)
Definition disk_rooted_at (path : string) (r : result cache) : Prop :=
  r = Ok (DiskCache path).

(** The path the last line of the factory builds. *)
Definition disk_path (cache_path_root : string) (seed : seed_t) : string :=
  "./" +:+ cache_path_root +:+ "/" +:+ format_seed seed.

(** The Cosmos branch was entered: its import succeeded or failed. *)
Definition cosmos_attempted (l : log) : Prop :=
  Imported ".cosmos_db_cache" ∈ l ∨ Warning cosmos_warning ∈ l.

(** The Redis branch can answer: a URL is given and the client imports. *)
Definition redis_usable (env : environment) (redis_url : option string) : bool :=
  PyStr.truthy redis_url && redis_cache_available env.

(** The Cosmos branch can answer. *)
Definition cosmos_usable (env : environment)
    (cosmosdb_config : option (gmap string pyval)) : bool :=
  cosmos_complete cosmosdb_config && cosmos_db_cache_available env.

Definition constructed (l : log) : list cache :=
  omap (fun e => match e with Constructed c => Some c | _ => None end) l.

Definition full_cosmos_config : gmap string pyval :=
  <["connection_string" := PStr "AccountEndpoint=https://h/;AccountKey=k;"]>
    (<["database_id" := PStr "db"]> (<["container_id" := PStr "c"]> ∅)).

Definition nothing_available : environment :=
  {| redis_cache_available := false; cosmos_db_cache_available := false |}.

Definition all_available : environment :=
  {| redis_cache_available := true; cosmos_db_cache_available := true |}.

(** What is installed where the module is imported: the [azure.cosmos]
    package, which the module itself names, and the sibling modules the
    body of the factory imports. *)
Record installation := {
  azure_cosmos_available : bool;
  siblings : environment
}.

(** The import the module runs when it is loaded, before the class
    [CacheFactory] exists: [from azure.cosmos import CosmosClient]. *)
Definition import_module (inst : installation) : M log unit :=
  import_from (azure_cosmos_available inst) "azure.cosmos".

(** A caller that imports the module and calls [cache_factory]. *)
Definition imported_cache_factory (inst : installation) (seed : seed_t)
    (redis_url : option string) (cache_path_root : string)
    (cosmosdb_config : option (gmap string pyval)) : M log cache :=
  import_module inst;;
  cache_factory (siblings inst) seed redis_url cache_path_root cosmosdb_config.

(** Neither the Redis client nor the Cosmos client is installed. *)
Definition no_client_library : installation :=
  {| azure_cosmos_available := false; siblings := nothing_available |}.

End CacheFactory.

(** * [autogen/agentchat/contrib/web_surfer.py] *)

Module WebSurfer.
Import PyStr.

(** ** Collaborators outside the file *)

(** [SimpleTextBrowser], as far as the agent reads and calls it. [T] is the
    type of the time stamps kept in the history. *)
Class TextBrowser (T B : Type) := {
  address : B -> string;
  page_title : B -> option string;
  viewport_current_page : B -> Z;
  viewport_pages : B -> list (Z * Z);
  history : B -> list (string * T);
  viewport : B -> string;
  page_content : B -> string;
  visit_page : string -> B -> B;
  page_up : B -> B;
  page_down : B -> B;
  find_on_page : string -> B -> option string * B;
  find_next : B -> option string * B
}.

(** Time stamps are what [time.time()] answers; [round_elapsed now t] is
    [round(now - t)]. *)
Class Clock (T : Type) := { round_elapsed : T -> T -> Z }.

(** [count_token] of [token_count_utils]. *)
Class TokenCounter := { count_token : string -> Z }.

(** A chat message: a [dict] with string keys. *)
Abbreviation message := (gmap string pyval).

(** The summarization client: [create(context=None, messages=...)],
    then [extract_text_or_completion_object(response)[0]], then [str]. *)
Class SummarizationClient := { create_and_extract : list message -> string }.

(** [filter_config] of [oai.openai_utils]. *)
Class OpenAIUtils := { filter_config : pyval -> pyval -> list pyval }.

(** ** Construction: [_create_summarizer_client] and [__init__] *)

(** [Optional[Union[Dict, Literal[False]]]]. *)
Inductive llm_config_t :=
  | CfgNone
  | CfgFalse
  | CfgDict (d : gmap string pyval).

(** An [OpenAIWrapper] built from keyword arguments. *)
Inductive client :=
  | OpenAIWrapper (kwargs : gmap string pyval).

(** The attributes of [self] that construction assigns, the names the
    inner assistant has been given as tools, and what has been logged. *)
Record agent := {
  summarizer_llm_config : llm_config_t;
  summarization_client : option client;
  registered : list string;
  warnings : list string
}.

Definition set_summarizer_llm_config (c : llm_config_t) : M agent unit :=
  modify (fun a => {| summarizer_llm_config := c;
                      summarization_client := summarization_client a;
                      registered := registered a;
                      warnings := warnings a |}).

Definition set_summarization_client (c : option client) : M agent unit :=
  modify (fun a => {| summarizer_llm_config := summarizer_llm_config a;
                      summarization_client := c;
                      registered := registered a;
                      warnings := warnings a |}).

Definition register_tool (name : string) : M agent unit :=
  modify (fun a => {| summarizer_llm_config := summarizer_llm_config a;
                      summarization_client := summarization_client a;
                      registered := registered a ++ [name];
                      warnings := warnings a |}).

Definition logger_warning (msg : string) : M agent unit :=
  modify (fun a => {| summarizer_llm_config := summarizer_llm_config a;
                      summarization_client := summarization_client a;
                      registered := registered a;
                      warnings := warnings a ++ [msg] |}).

Definition preferred_filter : pyval :=
  PDict {[ "model" := PList [PStr "gpt-3.5-turbo-1106";
                              PStr "gpt-3.5-turbo-16k-0613";
                              PStr "gpt-3.5-turbo-16k"] ]}.

Definition summarizer_warning : string :=
  "The summarizer did not find the preferred model (gpt-3.5-turbo-16k) in the config list. "
  +:+ "Semantic operations on webpages (summarization or Q&A) might be costly or ineffective.".

(** [OpenAIWrapper] applied to the unpacked configuration; unpacking
    with [**] needs a mapping. *)
Definition new_OpenAIWrapper (cfg : llm_config_t) : M agent client :=
  match cfg with
  | CfgDict d => mret (OpenAIWrapper d)
  | CfgNone => raise (TypeError "argument after ** must be a mapping, not NoneType")
  | CfgFalse => raise (TypeError "argument after ** must be a mapping, not bool")
  end.

Definition _create_summarizer_client `{OpenAIUtils}
    (summarizer_llm_config_arg llm_config : llm_config_t) : M agent unit :=
  match summarizer_llm_config_arg with
  | CfgNone =>
      match llm_config with
      | CfgNone => set_summarizer_llm_config CfgNone
      | CfgFalse => set_summarizer_llm_config CfgFalse
      | CfgDict d =>
          set_summarizer_llm_config (CfgDict d);;
          match d !! "config_list" with
          | Some config_list =>
              let preferred_models := filter_config config_list preferred_filter in
              if (Z.of_nat (length preferred_models) =? 0) then
                logger_warning summarizer_warning
              else
                set_summarizer_llm_config
                  (CfgDict (<["config_list" := PList preferred_models]> d))
          | None => mret tt
          end
      end
  | _ => set_summarizer_llm_config summarizer_llm_config_arg
  end;;
  a ← get_state;
  match summarizer_llm_config a with
  | CfgFalse => set_summarization_client None
  | cfg => c ← new_OpenAIWrapper cfg; set_summarization_client (Some c)
  end.

Definition browsing_tools : list string :=
  ["informational_web_search"; "navigational_web_search"; "visit_page";
   "download_file"; "page_up"; "page_down"; "find_on_page_ctrl_f";
   "find_next"].

Definition summarization_tools : list string :=
  ["read_page_and_answer"; "summarize_page"].

(** The names [_register_functions] registers, in order. *)
Definition _register_functions : M agent unit :=
  mapM register_tool browsing_tools;;
  a ← get_state;
  match summarization_client a with
  | Some _ => mapM register_tool summarization_tools;; mret tt
  | None => mret tt
  end.

(** [__init__], for the two configuration arguments: the summarizer
    client is created, then the tools are registered unless
    [inner_llm_config in [None, False]]. The constructor of the base class
    and the creation of the browser and of the inner agents are outside the
    file; they are taken to succeed and to leave these attributes alone. *)
Definition __init__ `{OpenAIUtils}
    (llm_config summarizer_llm_config_arg : llm_config_t) : M agent unit :=
  _create_summarizer_client summarizer_llm_config_arg llm_config;;
  let inner_llm_config := llm_config in
  match inner_llm_config with
  | CfgNone | CfgFalse => mret tt
  | CfgDict _ => _register_functions
  end.

(** The agent [a] with other values for the two attributes
    [_create_summarizer_client] assigns and with one more warning logged, if
    any. *)
Definition configured (cfg : llm_config_t) (c : option client)
    (warned : list string) (a : agent) : agent :=
  {| summarizer_llm_config := cfg; summarization_client := c;
     registered := registered a; warnings := warnings a ++ warned |}.

(** The object before [__init__] has assigned anything. *)
Definition blank : agent :=
  {| summarizer_llm_config := CfgNone; summarization_client := None;
     registered := []; warnings := [] |}.

(** ** The tools registered by [_register_functions] *)

(** What a tool call can change: the browser, and the calls made to the
    summarization client so far. *)
Record session (B : Type) := {
  browser : B;
  summarizer_calls : list (list message)
}.
Arguments browser {B} s.
Arguments summarizer_calls {B} s.

(** [range(start, -1, -1)]. *)
Definition range_down (start : Z) : list Z :=
  rev (map Z.of_nat (seq 0 (Z.to_nat (start + 1)))).

(** [l[i]] for an index that is not negative. *)
Definition index {S A} (l : list A) (i : Z) : M S A :=
  match l !! Z.to_nat i with
  | Some x => mret x
  | None => raise (IndexError "list index out of range")
  end.

Section Tools.
Context {T B : Type} `{TextBrowser T B} `{Clock T} `{TokenCounter} `{SummarizationClient}.

Definition on_browser (f : B -> B) : M (session B) unit :=
  modify (fun s => {| browser := f (browser s);
                      summarizer_calls := summarizer_calls s |}).

Definition summarization_client_create (messages : list message)
    : M (session B) string :=
  modify (fun s => {| browser := browser s;
                      summarizer_calls := summarizer_calls s ++ [messages] |});;
  mret (create_and_extract messages).

Definition previous_visit_line (now t : T) : string :=
  "You previously visited this page " +:+ str_of_int (round_elapsed now t)
  +:+ " seconds ago." +:+ LF.

(** The [for] loop of [_browser_state] over the indices still to
    visit; answers the header, extended when the loop breaks. *)
Fixpoint scan_history (h : list (string * T)) (address : string) (now : T)
    (header : string) (indices : list Z) : M (session B) string :=
  match indices with
  | [] => mret header
  | i :: rest =>
      entry ← index h i;
      if String.eqb (fst entry) address then
        mret (header +:+ previous_visit_line now (snd entry))
      else scan_history h address now header rest
  end.

Definition viewport_line (current_page total_pages : Z) : string :=
  "Viewport position: Showing page " +:+ str_of_int (current_page + 1)
  +:+ " of " +:+ str_of_int total_pages +:+ "." +:+ LF.

(** [now] is what [time.time()] answers during the call. *)
Definition _browser_state (now : T) : M (session B) (string * string) :=
  s ← get_state;
  let b := browser s in
  let header := "Address: " +:+ address b +:+ LF in
  let header :=
    match page_title b with
    | Some title => header +:+ "Title: " +:+ title +:+ LF
    | None => header
    end in
  let current_page := viewport_current_page b in
  let total_pages := Z.of_nat (length (viewport_pages b)) in
  let address := address b in
  header ← scan_history (history b) address now header
             (range_down (Z.of_nat (length (history b)) - 2));
  let header := header +:+ viewport_line current_page total_pages in
  mret (header, viewport b).

Definition separator : string := LF +:+ "=======================" +:+ LF.


Definition _navigational_search (query : string) (now : T)
    : M (session B) string :=
  on_browser (visit_page ("bing: " +:+ query));;
  s ← get_state;
  let m := re_search_link (page_content (browser s)) in
  match m with
  | Some group1 => on_browser (visit_page group1)
  | None => mret tt
  end;;
  '(header, content) ← _browser_state now;
  mret (strip header +:+ separator +:+ content).

(** The function registered as [visit_page]. *)
Definition _visit_page (url : string) (now : T) : M (session B) string :=
  on_browser (visit_page url);;
  '(header, content) ← _browser_state now;
  mret (strip header +:+ separator +:+ content).

(** The second function the source calls [_visit_page], registered as
    [download_file]. *)
Definition _visit_page_download_file (url : string) (now : T)
    : M (session B) string :=
  on_browser (visit_page url);;
  '(header, content) ← _browser_state now;
  mret (strip header +:+ separator +:+ content).



Definition browser_find_on_page (search_string : string)
    : M (session B) (option string) :=
  call (fun s =>
          let '(r, b) := find_on_page search_string (browser s) in
          (r, {| browser := b; summarizer_calls := summarizer_calls s |})).

Definition browser_find_next : M (session B) (option string) :=
  call (fun s =>
          let '(r, b) := find_next (browser s) in
          (r, {| browser := b; summarizer_calls := summarizer_calls s |})).

Definition _find_on_page_ctrl_f (search_string : string) (now : T)
    : M (session B) string :=
  find_result ← browser_find_on_page search_string;
  '(header, content) ← _browser_state now;
  match find_result with
  | None =>
      mret (strip header +:+ LF +:+ "=======================" +:+ LF
            +:+ "The search string '" +:+ search_string
            +:+ "' was not found on this page.")
  | Some _ => mret (strip header +:+ separator +:+ content)
  end.

Definition _find_next (now : T) : M (session B) string :=
  find_result ← browser_find_next;
  '(header, content) ← _browser_state now;
  match find_result with
  | None =>
      mret (strip header +:+ LF +:+ "=======================" +:+ LF
            +:+ "The search string was not found on this page.")
  | Some _ => mret (strip header +:+ separator +:+ content)
  end.

(** The [for] loop of [_read_page_and_answer]. *)
Fixpoint fill_buffer (limit : Z) (buffer : string) (lines : list string)
    : string :=
  match lines with
  | [] => buffer
  | line :: rest =>
      let tokens := count_token (buffer +:+ line) in
      if tokens + 1024 >? limit then buffer
      else fill_buffer limit (buffer +:+ line) rest
  end.

Definition limit : Z := 32000.

(** The buffer when the loop is left, for a page content. *)
Definition raw_buffer (content : string) : string :=
  fill_buffer limit "" (re_split_line_breaks content).

(** The buffer the prompt is built from. *)
Definition summarization_buffer (content : string) : string :=
  strip (raw_buffer content).

Definition system_message : message :=
  {[ "role" := PStr "system";
     "content" := PStr "You are a helpful assistant that can summarize long documents to answer question." ]}.

Definition summarize_prompt (question : option string) (buffer : string)
    : string :=
  match question with
  | Some q =>
      "Please summarize the following into one or two paragraphs with respect to '"
      +:+ q +:+ "':" +:+ LF +:+ LF +:+ buffer
  | None =>
      "Please summarize the following into one or two paragraph:"
      +:+ LF +:+ LF +:+ buffer
  end.

Definition _read_page_and_answer (question url : option string)
    : M (session B) string :=
  s ← get_state;
  match url with
  | Some u =>
      if negb (String.eqb u (address (browser s)))
      then on_browser (visit_page u)
      else mret tt
  | None => mret tt
  end;;
  s ← get_state;
  let buffer := raw_buffer (page_content (browser s)) in
  let buffer := strip buffer in
  if len buffer =? 0 then mret "Nothing to summarize."
  else
    let messages := [system_message] in
    let prompt := summarize_prompt question buffer in
    let messages :=
      messages ++ [ ({[ "role" := PStr "user"; "content" := PStr prompt ]} : message) ] in
    summarization_client_create messages.

(** The page [_read_page_and_answer] reads: the one at [url] when an
    address other than the current one is given. *)
Definition page_read (url : option string) (b : B) : B :=
  match url with
  | Some u => if negb (String.eqb u (address b)) then visit_page u b else b
  | None => b
  end.

Definition _summarize_page (url : option string) : M (session B) string :=
  _read_page_and_answer None url.

End Tools.

(** ** The formats and notions of the specification *)

(** The header of every tool reply, as the specification lays it out:
    address line, title line if there is a title, the line on a previous
    visit if there is one, viewport line. *)
Definition header_format (address : string) (title : option string)
    (previously : option Z) (current_page total_pages : Z) : string :=
  "Address: " +:+ address +:+ LF
  +:+ match title with
      | Some t => "Title: " +:+ t +:+ LF
      | None => ""
      end
  +:+ match previously with
      | Some n =>
          "You previously visited this page " +:+ str_of_int n
          +:+ " seconds ago." +:+ LF
      | None => ""
      end
  +:+ "Viewport position: Showing page " +:+ str_of_int (current_page + 1)
  +:+ " of " +:+ str_of_int total_pages +:+ "." +:+ LF.

(** Entry [i] of the history is the most recent visit to [address] before
    the last entry. *)
Definition is_latest_prior_visit {T} (h : list (string * T)) (address : string)
    (i : nat) (t : T) : Prop :=
  (i + 1 < length h)%nat
  /\ h !! i = Some (address, t)
  /\ forall j a t', (i < j)%nat -> (j + 1 < length h)%nat ->
       h !! j = Some (a, t') -> a <> address.

(** No entry before the last is a visit to [address]. *)
Definition no_prior_visit {T} (h : list (string * T)) (address : string) : Prop :=
  forall j a t', (j + 1 < length h)%nat -> h !! j = Some (a, t') -> a <> address.

(** A markdown-style link to an [http] target within [content]: an opening
    bracket behind [pre], the link text [text], and the target [http]
    followed by [g] in parentheses; neither the text nor the target runs
    over a line feed. *)
Definition link_at (content pre text g post : string) : Prop :=
  content = pre +:+ "[" +:+ text +:+ "](http" +:+ g +:+ ")" +:+ post
  /\ has_char LF_char text = false
  /\ has_char LF_char g = false.

(** [target] is the target of the first such link: the one whose bracket
    comes first, with the shortest text and the shortest target from
    there. *)
Definition first_link_target (content target : string) : Prop :=
  exists pre text g post,
    link_at content pre text g post
    /\ target = "http" +:+ g
    /\ has_char ")" g = false
    /\ forall pre' text' g' post', link_at content pre' text' g' post' ->
         (String.length pre < String.length pre')%nat
         \/ (String.length pre = String.length pre'
             /\ String.length text <= String.length text')%nat.

Definition no_link (content : string) : Prop :=
  forall pre text g post, ~ link_at content pre text g post.







(** The messages of the one call to the summarization client. *)
Definition summarizer_messages (question : option string) (buffer : string)
    : list message :=
  [ {[ "role" := PStr "system";
       "content" := PStr "You are a helpful assistant that can summarize long documents to answer question." ]};
    {[ "role" := PStr "user";
       "content" := PStr match question with
                         | Some q =>
                             "Please summarize the following into one or two paragraphs with respect to '"
                             +:+ q +:+ "':" +:+ LF +:+ LF +:+ buffer
                         | None =>
                             "Please summarize the following into one or two paragraph:"
                             +:+ LF +:+ LF +:+ buffer
                         end ]} ].

(** The state a tool leaves when it has moved the browser to [b]. *)
Definition with_browser {B} (b : B) (s : session B) : session B :=
  {| browser := b; summarizer_calls := summarizer_calls s |}.

(** ** [generate_surfer_reply] *)

(** An [Agent], by name. *)
Inductive Agent :=
  | AgentNamed (name : string).

(** The inner assistant and user proxy, the browser and the model behind
    them, as one state [W]. The fields are the calls and reads
    [generate_surfer_reply] makes on [self]. *)
Class InnerAgents (B W : Type) := {
  self_browser : W -> B;
  _oai_messages : option Agent -> W -> list pyval;
  _user_proxy_reset : W -> W;
  _assistant_reset : W -> W;
  (** [self._assistant.chat_messages[self._user_proxy]] is assigned a new
      list holding the given messages. *)
  _assistant_set_chat_messages : list pyval -> W -> W;
  (** [self._user_proxy.send(message, self._assistant, request_reply, silent=True)] *)
  _user_proxy_send : pyval -> bool -> W -> W;
  (** [self._user_proxy.chat_messages[self._assistant]] *)
  _user_proxy_chat_messages : W -> list pyval;
  (** [self._user_proxy.generate_reply(messages=..., sender=self._assistant)] *)
  _user_proxy_generate_reply : list pyval -> W -> pyval * W
}.

(** [v[key]] for a string key. *)
Definition subscript {S} (v : pyval) (key : string) : M S pyval :=
  match v with
  | PDict d =>
      match d !! key with
      | Some x => mret x
      | None => raise (KeyError key)
      end
  | PStr _ => raise (TypeError "string indices must be integers")
  | PList _ => raise (TypeError "list indices must be integers or slices, not str")
  | PNone => raise (TypeError "'NoneType' object is not subscriptable")
  | PBool _ => raise (TypeError "'bool' object is not subscriptable")
  | PInt _ => raise (TypeError "'int' object is not subscriptable")
  end.

(** [l[-1]]. *)
Definition index_last {S A} (l : list A) : M S A :=
  match last l with
  | Some x => mret x
  | None => raise (IndexError "list index out of range")
  end.

(** [v == ""]. *)
Definition eq_empty_str (v : pyval) : bool :=
  match v with
  | PStr EmptyString => true
  | _ => false
  end.

(** [v is None]. *)
Definition is_None (v : pyval) : bool :=
  match v with
  | PNone => true
  | _ => false
  end.

(** [f"{title}"] for an optional string. *)
Definition format_optional (o : option string) : string :=
  match o with
  | Some s => s
  | None => "None"
  end.

Section Relay.
Context {T B W : Type} `{TextBrowser T B} `{InnerAgents B W}.

Definition reminder (w : W) : string :=
  "Your browser is currently open to the page '"
  +:+ format_optional (page_title (self_browser w))
  +:+ "' at the address '" +:+ address (self_browser w) +:+ "'.".

(** The last statement of [generate_surfer_reply]: which of the two
    replies is answered. *)
Definition resolve (agent_reply proxy_reply : pyval) : M W (bool * pyval) :=
  if eq_empty_str proxy_reply then
    v ← (if is_None agent_reply then mret PNone
         else subscript agent_reply "content");
    mret (true, v)
  else
    v ← (if is_None proxy_reply then mret PNone
         else subscript proxy_reply "content");
    mret (true, v).

Definition generate_surfer_reply (messages : option (list pyval))
    (sender : option Agent) : M W (bool * pyval) :=
  w ← get_state;
  let messages :=
    match messages with
    | None => _oai_messages sender w
    | Some m => m
    end in
  modify _user_proxy_reset;;
  modify _assistant_reset;;
  let history := take (length messages - 1)%nat messages in
  modify (_assistant_set_chat_messages history);;
  w ← get_state;
  modify (_user_proxy_send (PStr (reminder w)) false);;
  last_message ← index_last messages;
  content ← subscript last_message "content";
  modify (_user_proxy_send content true);;
  w ← get_state;
  agent_reply ← index_last (_user_proxy_chat_messages w);
  proxy_reply ← call (_user_proxy_generate_reply (_user_proxy_chat_messages w));
  resolve agent_reply proxy_reply.

(** The state of the inner agents when the last inbound message, of
    content [content], has been sent to the assistant. *)
Definition dispatched (messages : list pyval) (content : pyval) (w : W) : W :=
  let w1 :=
    _assistant_set_chat_messages (take (length messages - 1)%nat messages)
      (_assistant_reset (_user_proxy_reset w)) in
  _user_proxy_send content true (_user_proxy_send (PStr (reminder w1)) false w1).

End Relay.

(** ** Further notions used to describe the code *)

(** Every character of [s] is whitespace. *)
Fixpoint all_space (s : string) : bool :=
  match s with
  | EmptyString => true
  | String c s' => is_space c && all_space s'
  end.

(** The client that goes with a resolved summarizer configuration. *)
Definition client_of (cfg : llm_config_t) : option client :=
  match cfg with
  | CfgDict d => Some (OpenAIWrapper d)
  | _ => None
  end.

(** The tool names a construction with these two arguments registers. *)
Definition registered_by (llm_config summarizer_arg : llm_config_t)
    : list string :=
  match llm_config with
  | CfgDict _ =>
      browsing_tools
      ++ match summarizer_arg with
         | CfgFalse => []
         | _ => summarization_tools
         end
  | _ => []
  end.

Section ReplyFormats.
Context {T B : Type} `{TextBrowser T B} `{Clock T}.

(** The header of the reply for a browser [b], given the earlier visit
    found, if any. *)
Definition header_of (now : T) (previously : option T) (b : B) : string :=
  header_format (address b) (page_title b) (round_elapsed now <$> previously)
    (viewport_current_page b) (Z.of_nat (length (viewport_pages b))).

End ReplyFormats.

Section RelayStates.
Context {T B W : Type} `{TextBrowser T B} `{InnerAgents B W}.

(** The state of the inner agents when both have been reset, the history
    has been cloned and the reminder has been sent. *)
Definition reminded (messages : list pyval) (w : W) : W :=
  let w1 :=
    _assistant_set_chat_messages (take (length messages - 1)%nat messages)
      (_assistant_reset (_user_proxy_reset w)) in
  _user_proxy_send (PStr (reminder w1)) false w1.

End RelayStates.

End WebSurfer.


(** * Small instances of the collaborators, to run the embedding on *)

Module Sample.
Import PyStr WebSurfer.

(** A browser over a web of two pages; time stamps are whole seconds. *)
Record toy_browser := {
  toy_address : string;
  toy_title : option string;
  toy_content : string;
  toy_history : list (string * Z)
}.

Definition toy_fetch (url : string) : string :=
  if String.eqb url "bing: rocq" then
    "1. [The Rocq Prover](https://rocq-prover.org) a proof assistant"
  else if String.eqb url "https://rocq-prover.org" then
    "Welcome" +:+ LF +:+ "to Rocq" +:+ LF
  else if String.eqb url "about:spaces" then "  " +:+ LF
  else "No results.".

Definition toy_visit (url : string) (b : toy_browser) : toy_browser :=
  {| toy_address := url;
     toy_title := if String.eqb url "https://rocq-prover.org" then Some "Rocq" else None;
     toy_content := toy_fetch url;
     toy_history :=
       toy_history b ++ [(url, 10 * Z.of_nat (length (toy_history b)))] |}.

Definition toy_find (pattern : string) (b : toy_browser)
    : option string * toy_browser :=
  match drop_prefix pattern (toy_content b) with
  | Some _ => (Some (toy_content b), b)
  | None => (None, b)
  end.

#[export] Instance toy_TextBrowser : TextBrowser Z toy_browser := {|
  address := toy_address;
  page_title := toy_title;
  viewport_current_page := fun _ => 0;
  viewport_pages := fun b => [(0, len (toy_content b))];
  history := toy_history;
  viewport := toy_content;
  page_content := toy_content;
  visit_page := toy_visit;
  page_up := fun b => b;
  page_down := fun b => b;
  find_on_page := toy_find;
  find_next := fun b => (None, b)
|}.

#[export] Instance toy_Clock : Clock Z := {|
  round_elapsed := fun now t => now - t
|}.

Definition start_page : toy_browser :=
  {| toy_address := "about:blank"; toy_title := None; toy_content := "";
     toy_history := [("about:blank", 0)] |}.

Definition fresh (b : toy_browser) : session toy_browser :=
  {| browser := b; summarizer_calls := [] |}.


(** One token per character. *)
#[export] Instance toy_TokenCounter : TokenCounter := {|
  count_token := len
|}.

#[export] Instance toy_SummarizationClient : SummarizationClient := {|
  create_and_extract := fun _ => "A summary."
|}.

(** Whether a configuration names one of the given models. *)
Definition names_model (models : list pyval) (config : pyval) : bool :=
  match config with
  | PDict d =>
      match d !! "model" with
      | Some (PStr m) =>
          existsb (fun v => match v with PStr m' => String.eqb m m' | _ => false end)
                  models
      | _ => false
      end
  | _ => false
  end.

(** Modelled from the spec: [filter_config] of [oai.openai_utils] is not
    among the sources; the configurations of the list whose model is on the
    allow-list of the filter are kept, in order. *)
Definition toy_filter_config (config_list filter_dict : pyval) : list pyval :=
  match config_list, filter_dict with
  | PList l, PDict f =>
      match f !! "model" with
      | Some (PList models) => List.filter (names_model models) l
      | _ => l
      end
  | _, _ => []
  end.

#[export] Instance toy_OpenAIUtils : OpenAIUtils := {|
  filter_config := toy_filter_config
|}.

Definition gpt4_config : pyval := PDict {[ "model" := PStr "gpt-4" ]}.
Definition gpt35_config : pyval := PDict {[ "model" := PStr "gpt-3.5-turbo-16k" ]}.

(** The inner agents: the assistant answers every request with a fixed
    message, and the user proxy answers what [w_proxy_reply] holds. *)
Record toy_agents := {
  w_browser : toy_browser;
  w_assistant_view : list pyval;
  w_proxy_view : list pyval;
  w_assistant_reply : pyval;
  w_proxy_reply : pyval
}.

Definition toy_send (content : pyval) (request_reply : bool) (w : toy_agents)
    : toy_agents :=
  {| w_browser := w_browser w;
     w_assistant_view := w_assistant_view w ++ [content];
     w_proxy_view :=
       w_proxy_view w
       ++ [PDict {[ "content" := content; "role" := PStr "assistant" ]}]
       ++ (if request_reply then [w_assistant_reply w] else []);
     w_assistant_reply := w_assistant_reply w;
     w_proxy_reply := w_proxy_reply w |}.

#[export] Instance toy_InnerAgents : InnerAgents toy_browser toy_agents := {|
  self_browser := w_browser;
  _oai_messages := fun _ _ => [];
  _user_proxy_reset := fun w =>
    {| w_browser := w_browser w; w_assistant_view := w_assistant_view w;
       w_proxy_view := []; w_assistant_reply := w_assistant_reply w;
       w_proxy_reply := w_proxy_reply w |};
  _assistant_reset := fun w =>
    {| w_browser := w_browser w; w_assistant_view := [];
       w_proxy_view := w_proxy_view w; w_assistant_reply := w_assistant_reply w;
       w_proxy_reply := w_proxy_reply w |};
  _assistant_set_chat_messages := fun l w =>
    {| w_browser := w_browser w; w_assistant_view := l;
       w_proxy_view := w_proxy_view w; w_assistant_reply := w_assistant_reply w;
       w_proxy_reply := w_proxy_reply w |};
  _user_proxy_send := toy_send;
  _user_proxy_chat_messages := w_proxy_view;
  _user_proxy_generate_reply := fun _ w => (w_proxy_reply w, w)
|}.

Definition toy_world (assistant_reply proxy_reply : pyval) : toy_agents :=
  {| w_browser := start_page; w_assistant_view := []; w_proxy_view := [];
     w_assistant_reply := assistant_reply; w_proxy_reply := proxy_reply |}.

Definition user_message (text : string) : pyval :=
  PDict {[ "content" := PStr text; "role" := PStr "user" ]}.

(** A browser whose search pages link to a relative address. *)
Record docs_browser := {
  docs_address : string;
  docs_history : list (string * Z)
}.

Definition docs_fetch (url : string) : string :=
  if String.eqb url "bing: docs" then
    "[docs](/relative/path) and [b](https://x)"
  else if String.eqb url "bing: guide" then "see [docs](/relative/path)"
  else "A page.".

Definition docs_visit (url : string) (b : docs_browser) : docs_browser :=
  {| docs_address := url; docs_history := docs_history b ++ [(url, 0)] |}.

#[export] Instance docs_TextBrowser : TextBrowser Z docs_browser := {|
  address := docs_address;
  page_title := fun _ => None;
  viewport_current_page := fun _ => 0;
  viewport_pages := fun b => [(0, len (docs_fetch (docs_address b)))];
  history := docs_history;
  viewport := fun b => docs_fetch (docs_address b);
  page_content := fun b => docs_fetch (docs_address b);
  visit_page := docs_visit;
  page_up := fun b => b;
  page_down := fun b => b;
  find_on_page := fun _ b => (None, b);
  find_next := fun b => (None, b)
|}.


(** Four lines of ten characters. *)
Definition four_lines : string :=
  "0123456789" +:+ LF +:+ "0123456789" +:+ LF +:+ "0123456789" +:+ LF
  +:+ "0123456789".

(** A filter that lets nothing through. *)
Definition reject_all : OpenAIUtils := {|
  filter_config := fun _ _ => []
|}.

(** A Cosmos configuration without its container. *)
Definition partial_cosmos_config : gmap string pyval :=
  <["connection_string" := PStr "AccountEndpoint=https://h/;AccountKey=k;"]>
    (<["database_id" := PStr "db"]> ∅).

(** A counter of a thousand tokens per character. *)
Definition heavy_counter : TokenCounter := {|
  count_token := fun s => 1000 * len s
|}.

(** A browser resting on a page of one long line. *)
Definition long_line_page : toy_browser :=
  {| toy_address := "about:long";
     toy_title := None;
     toy_content := "0123456789012345678901234567890123456789" +:+ LF +:+ "end";
     toy_history := [("about:long", 0)] |}.

End Sample.

Import PyStr CacheFactory WebSurfer Sample.

(** Unfolds the operations of the monad [M] in the goal. *)
Ltac step_M :=
  unfold mbind, M_bind, M_bind_def, mret, M_ret, M_ret_def, get_state, modify,
    call;
  cbv beta iota zeta.

(** * Backend selection *)

Section CacheFactoryFacts.
Variables (env : environment) (seed : seed_t) (cache_path_root : string).

(** Every run of the factory, by the tests it makes. *)
Lemma cache_factory_cases (redis_url : option string)
    (cosmosdb_config : option (gmap string pyval)) :
  run (cache_factory env seed redis_url cache_path_root cosmosdb_config) =
    if redis_usable env redis_url then
      let c := RedisCache seed (default "" redis_url) in
      (Ok c, [Imported ".redis_cache"; Constructed c])
    else
      let w1 := if truthy redis_url then [Warning redis_warning] else [] in
      if cosmos_usable env cosmosdb_config then
        let c := CosmosDBCache seed (default ∅ cosmosdb_config) in
        (Ok c, w1 ++ [Imported ".cosmos_db_cache"; Constructed c])
      else
        let w2 :=
          if cosmos_complete cosmosdb_config then [Warning cosmos_warning]
          else [] in
        let c := DiskCache (disk_path cache_path_root seed) in
        (Ok c, w1 ++ w2 ++ [Constructed c]).
Proof.
  unfold run, cache_factory, disk_path, redis_usable, cosmos_usable.
  destruct env as [redis cosmos].
  destruct redis_url as [[|c url]|], cosmosdb_config as [d|];
    try destruct (cosmos_complete (Some d)) eqn:E;
    destruct redis, cosmos; reflexivity.
Qed.

Lemma cosmos_complete_keys (cosmosdb_config : option (gmap string pyval)) :
  cosmos_complete cosmosdb_config = true <->
  exists d, cosmosdb_config = Some d
            /\ is_Some (d !! "connection_string")
            /\ is_Some (d !! "database_id")
            /\ is_Some (d !! "container_id").
Proof.
  destruct cosmosdb_config as [d|]; simpl.
  - unfold has_key. rewrite !andb_true_iff, !bool_decide_eq_true. split.
    + intros (_ & Hc & Hd & Hk & _). eauto 6.
    + intros (d' & [= <-] & Hc & Hd & Hk). repeat split; try assumption.
      intros ->. rewrite lookup_empty in Hc. by destruct Hc.
  - split; [discriminate | intros (d & [=] & _)].
Qed.

(** The body of the factory, once the module is loaded: when neither
    sibling module imports it does not raise, constructs nothing but a disk
    cache and answers it; the path of that cache is
    [./{cache_path_root}/{seed}]. With a Redis URL given and a complete
    Cosmos configuration, both warnings are logged first. *)
Lemma cache_factory_disk_fallback (redis_url : option string)
    (cosmosdb_config : option (gmap string pyval)) :
  redis_cache_available env = false ->
  cosmos_db_cache_available env = false ->
  let r := run (cache_factory env seed redis_url cache_path_root cosmosdb_config) in
  disk_rooted_at ("./" +:+ cache_path_root +:+ "/" +:+ format_seed seed) (fst r)
  /\ constructed (snd r) = [DiskCache (disk_path cache_path_root seed)]
  /\ (truthy redis_url = true -> cosmos_complete cosmosdb_config = true ->
      snd r = [Warning redis_warning; Warning cosmos_warning;
               Constructed (DiskCache (disk_path cache_path_root seed))]).
Proof.
  intros Hr Hc r. subst r. rewrite cache_factory_cases.
  unfold redis_usable, cosmos_usable. rewrite Hr, Hc, !andb_false_r.
  destruct (truthy redis_url), (cosmos_complete cosmosdb_config);
    (split; [reflexivity | split; [reflexivity | intros; done]]).
Qed.

(** C3. Redis is tried first, then Cosmos, then disk. A given URL with the
    Redis client present answers a Redis cache and constructs nothing else;
    failing that, a complete configuration with the Cosmos client present
    answers a Cosmos cache; failing both, a disk cache. The Cosmos branch
    is entered only for a configuration holding the three keys. *)
Theorem cache_factory_resolution_order (redis_url : option string)
    (cosmosdb_config : option (gmap string pyval)) :
  let r := run (cache_factory env seed redis_url cache_path_root cosmosdb_config) in
  (forall url, redis_url = Some url -> url <> "" ->
     redis_cache_available env = true ->
     r = (Ok (RedisCache seed url),
          [Imported ".redis_cache"; Constructed (RedisCache seed url)])
     /\ constructed (snd r) = [RedisCache seed url])
  /\ (redis_usable env redis_url = false ->
      forall d, cosmosdb_config = Some d -> cosmos_usable env (Some d) = true ->
      fst r = Ok (CosmosDBCache seed d)
      /\ constructed (snd r) = [CosmosDBCache seed d])
  /\ (redis_usable env redis_url = false ->
      cosmos_usable env cosmosdb_config = false ->
      fst r = Ok (DiskCache (disk_path cache_path_root seed))
      /\ constructed (snd r) = [DiskCache (disk_path cache_path_root seed)])
  /\ (cosmos_attempted (snd r) ->
      exists d, cosmosdb_config = Some d
                /\ is_Some (d !! "connection_string")
                /\ is_Some (d !! "database_id")
                /\ is_Some (d !! "container_id")).
Proof.
  intros r. subst r. rewrite cache_factory_cases.
  split; [|split; [|split]].
  - intros url -> Hne Hav. unfold redis_usable.
    destruct url; [done|]. simpl. by rewrite Hav.
  - intros Hr d -> Hc. rewrite Hr, Hc. by destruct (truthy redis_url).
  - intros Hr Hc. rewrite Hr, Hc.
    by destruct (truthy redis_url), (cosmos_complete cosmosdb_config).
  - intros Hatt. apply cosmos_complete_keys.
    destruct (cosmos_complete cosmosdb_config) eqn:E; [done|].
    exfalso. unfold cosmos_usable in Hatt. rewrite E in Hatt. simpl in Hatt.
    destruct (redis_usable env redis_url), (truthy redis_url);
      destruct Hatt as [Hin|Hin]; simpl in Hin;
      repeat (apply elem_of_cons in Hin as [Hin|Hin]; [discriminate|]);
      by apply elem_of_nil in Hin.
Qed.

End CacheFactoryFacts.

(** With seed 42 and the absolute root [/var/cache] the body of the factory
    roots the disk cache at [.//var/cache/42], a path relative to the
    working directory, and not at [/var/cache/42]. *)
Lemma cache_factory_absolute_root_path :
  let r := run (cache_factory nothing_available (SeedInt 42)
                  (Some "redis://localhost:6379/0") "/var/cache"
                  (Some full_cosmos_config)) in
  truthy (Some "redis://localhost:6379/0") = true
  /\ cosmos_complete (Some full_cosmos_config) = true
  /\ fst r = Ok (DiskCache ".//var/cache/42")
  /\ ~ disk_rooted_at ("/var/cache" +:+ "/" +:+ format_seed (SeedInt 42)) (fst r).
Proof.
  repeat split; try (vm_compute; reflexivity).
  unfold disk_rooted_at. vm_compute. discriminate.
Qed.

(** The fallback of the body on the sample configuration, with neither
    sibling module. *)
Lemma cache_factory_disk_fallback_sample :
  let r := run (cache_factory nothing_available (SeedInt 42)
                  (Some "redis://localhost:6379/0") ".cache"
                  (Some full_cosmos_config)) in
  disk_rooted_at ("./" +:+ ".cache" +:+ "/" +:+ format_seed (SeedInt 42)) (fst r)
  /\ constructed (snd r) = [DiskCache (disk_path ".cache" (SeedInt 42))]
  /\ (truthy (Some "redis://localhost:6379/0") = true ->
      cosmos_complete (Some full_cosmos_config) = true ->
      snd r = [Warning redis_warning; Warning cosmos_warning;
               Constructed (DiskCache (disk_path ".cache" (SeedInt 42)))]).
Proof.
  apply (cache_factory_disk_fallback nothing_available (SeedInt 42) ".cache");
    reflexivity.
Defined.

(** Where [azure.cosmos] is missing the import of the module raises, and
    the factory is never called. *)
Lemma imported_cache_factory_needs_cosmos (inst : installation) (seed : seed_t)
    (redis_url : option string) (cache_path_root : string)
    (cosmosdb_config : option (gmap string pyval)) :
  azure_cosmos_available inst = false ->
  run (imported_cache_factory inst seed redis_url cache_path_root cosmosdb_config)
  = (Raise (ImportError "azure.cosmos"), []).
Proof.
  intros Hmissing. unfold run, imported_cache_factory, import_module.
  rewrite Hmissing. reflexivity.
Qed.

(** C2. The code breaks the claim. With a Redis URL, a complete Cosmos
    configuration and neither client library installed, a caller that
    imports the module gets [ImportError] from the import of [azure.cosmos]
    at the head of the module, with nothing constructed; the fallback to a
    disk cache, which the body of the factory does hold for the same
    arguments, is never reached. *)
Theorem cache_factory_import_raises_without_cosmos :
  truthy (Some "redis://localhost:6379/0") = true
  /\ cosmos_complete (Some full_cosmos_config) = true
  /\ run (imported_cache_factory no_client_library (SeedInt 42)
            (Some "redis://localhost:6379/0") ".cache"
            (Some full_cosmos_config))
     = (Raise (ImportError "azure.cosmos"), [])
  /\ fst (run (cache_factory (siblings no_client_library) (SeedInt 42)
                 (Some "redis://localhost:6379/0") ".cache"
                 (Some full_cosmos_config)))
     = Ok (DiskCache "./.cache/42").
Proof.
  split; [reflexivity|]. split; [vm_compute; reflexivity|]. split.
  - by apply imported_cache_factory_needs_cosmos.
  - vm_compute. reflexivity.
Qed.

(** A URL and the Redis client: a Redis cache, and only that. *)
Lemma cache_factory_resolution_order_witness :
  let r := run (cache_factory all_available (SeedStr "myseed")
                  (Some "redis://localhost:6379/0") ".cache" None) in
  r = (Ok (RedisCache (SeedStr "myseed") "redis://localhost:6379/0"),
       [Imported ".redis_cache";
        Constructed (RedisCache (SeedStr "myseed") "redis://localhost:6379/0")])
  /\ constructed (snd r) = [RedisCache (SeedStr "myseed") "redis://localhost:6379/0"].
Proof.
  apply (proj1 (cache_factory_resolution_order all_available (SeedStr "myseed")
                  ".cache" (Some "redis://localhost:6379/0") None));
    [reflexivity | discriminate | reflexivity].
Defined.

(** * The library functions on small inputs *)

Example re_split_two_lines :
  re_split_line_breaks ("a" +:+ LF +:+ LF +:+ "b" +:+ LF)
  = ["a"; LF +:+ LF; "b"; LF; ""].
Proof. reflexivity. Qed.

Example re_split_empty : re_split_line_breaks "" = [""].
Proof. reflexivity. Qed.

Example re_split_leading_break :
  re_split_line_breaks (String CR_char LF +:+ " x " +:+ String CR_char "")
  = [""; String CR_char LF; " x "; String CR_char ""; ""].
Proof. reflexivity. Qed.

Example re_search_skips_plain_brackets :
  re_search_link "[a] text [b](http://x) and (y)" = Some "http://x".
Proof. reflexivity. Qed.

Example re_search_needs_http :
  re_search_link "[a](ftp://y) [b](https://x)" = Some "https://x".
Proof. reflexivity. Qed.

Example re_search_stays_on_the_line :
  re_search_link ("[a](http://x" +:+ LF +:+ ") [b](https://z)") = Some "https://z".
Proof. reflexivity. Qed.

Example re_search_first_close :
  re_search_link "[a](http://x(1)) z" = Some "http://x(1".
Proof. reflexivity. Qed.

Example re_search_no_link : re_search_link "no link" = None.
Proof. reflexivity. Qed.

Example strip_both_ends : strip ("  a b " +:+ LF) = "a b".
Proof. reflexivity. Qed.

Example str_of_int_negative : str_of_int (-42) = "-42".
Proof. reflexivity. Qed.

(** * Strings *)

Lemma str_app_nil_r (s : string) : s +:+ "" = s.
Proof.
  induction s as [|c s IH]; [reflexivity|].
  change (String c (s +:+ "") = String c s). by rewrite IH.
Qed.

Lemma str_app_assoc (a b c : string) : a +:+ (b +:+ c) = (a +:+ b) +:+ c.
Proof.
  induction a as [|x a IH]; [reflexivity|].
  change (String x (a +:+ (b +:+ c)) = String x ((a +:+ b) +:+ c)).
  by rewrite IH.
Qed.

Lemma str_app_cons (c : ascii) (s t : string) :
  String c s +:+ t = String c (s +:+ t).
Proof. reflexivity. Qed.

Lemma str_app_eq_nil (s t : string) : s +:+ t = "" -> s = "" /\ t = "".
Proof.
  destruct s; [|discriminate].
  change ("" +:+ t) with t. by intros ->.
Qed.

Lemma rstrip_app_keep (s t : string) :
  rstrip t <> "" -> rstrip (s +:+ t) = s +:+ rstrip t.
Proof.
  intros Ht. induction s as [|c s IH]; [reflexivity|].
  rewrite !str_app_cons. simpl. rewrite IH.
  destruct (s +:+ rstrip t) eqn:E; [|reflexivity].
  apply str_app_eq_nil in E as [_ E]. by destruct Ht.
Qed.

(** Stripping a text that starts with a character that is no space and
    ends with a full stop and a line feed removes the line feed. *)
Lemma strip_line (c : ascii) (s : string) :
  is_space c = false ->
  strip (String c s +:+ "." +:+ LF) = String c s +:+ ".".
Proof.
  intros Hc. unfold strip.
  assert (lstrip (String c s +:+ "." +:+ LF) = String c s +:+ "." +:+ LF) as ->.
  { rewrite str_app_cons. simpl. by rewrite Hc. }
  by rewrite rstrip_app_keep.
Qed.

Lemma strip_line_app (p s : string) (c : ascii) (p' : string) :
  p = String c p' -> is_space c = false ->
  strip (p +:+ s +:+ "." +:+ LF) = p +:+ s +:+ ".".
Proof.
  intros -> Hc. rewrite !(str_app_assoc (String c p') s).
  rewrite str_app_cons. by apply strip_line.
Qed.

(** What [rstrip] answers does not end with a space. *)
Lemma rstrip_last (s x : string) (c : ascii) :
  rstrip s = x +:+ String c "" -> is_space c = false.
Proof.
  revert x. induction s as [|c0 s IH]; intros x; simpl.
  - by destruct x.
  - destruct (rstrip s) as [|a r] eqn:E.
    + destruct (is_space c0) eqn:E0; [by destruct x|].
      destruct x as [|x0 [|x1 x]]; [|discriminate..]. by intros [= <-].
    + destruct x as [|x0 x]; [discriminate|].
      rewrite str_app_cons. intros [= _ Hr]. by eapply IH.
Qed.

Lemma strip_last (s x : string) (c : ascii) :
  strip s = x +:+ String c "" -> is_space c = false.
Proof. apply rstrip_last. Qed.

Lemma len_zero (s : string) : (len s =? 0) = true <-> s = "".
Proof.
  unfold len. destruct s; simpl; [done|]. split; discriminate.
Qed.

(** * The header of a tool reply *)

Section BrowserStateFacts.
Context {T B : Type} `{TextBrowser T B} `{Clock T}.

Lemma range_down_history (n : nat) :
  range_down (Z.of_nat n - 2) = rev (map Z.of_nat (seq 0 (n - 1)%nat)).
Proof. unfold range_down. do 3 f_equal. lia. Qed.

(** The loop over the indices below [n], from the highest down: it stops
    at the highest index holding the address, or finds none. *)
Lemma scan_history_below (h : list (string * T)) (address : string) (now : T)
    (header : string) (s : session B) (n : nat) :
  (n <= length h)%nat ->
  (exists i t, (i < n)%nat /\ h !! i = Some (address, t)
     /\ (forall j a t', (i < j < n)%nat -> h !! j = Some (a, t') -> a <> address)
     /\ scan_history h address now header (rev (map Z.of_nat (seq 0 n))) s
        = (Ok (header +:+ previous_visit_line now t), s))
  \/ ((forall j a t', (j < n)%nat -> h !! j = Some (a, t') -> a <> address)
      /\ scan_history h address now header (rev (map Z.of_nat (seq 0 n))) s
         = (Ok header, s)).
Proof.
  induction n as [|n IH]; intros Hn.
  - right. split; [intros; lia | reflexivity].
  - rewrite seq_S, map_app, rev_app_distr. simpl.
    destruct (lookup_lt_is_Some_2 h n) as [[a t] Hat]; [lia|].
    unfold mbind, M_bind, M_bind_def, index. rewrite Nat2Z.id, Hat. simpl.
    destruct (String.eqb a address) eqn:E.
    + apply String.eqb_eq in E as ->. left. exists n, t.
      repeat split; [lia | done | intros; lia].
    + apply String.eqb_neq in E.
      destruct IH as [(i & t' & Hi & Hl & Hlast & Hrun)|[Hnone Hrun]]; [lia|..].
      * left. exists i, t'. repeat split; [lia | done | | done].
        intros j a' t'' Hj Hl'. destruct (decide (j = n)) as [->|].
        -- by simplify_eq.
        -- eapply Hlast; [|done]. lia.
      * right. split; [|done].
        intros j a' t'' Hj Hl'. destruct (decide (j = n)) as [->|].
        -- by simplify_eq.
        -- eapply Hnone; [|done]. lia.
Qed.


(** [_browser_state] reads: it does not raise and changes nothing. The
    header has the layout of the specification, with the line on a previous
    visit for the most recent visit before the last entry, if any. *)
Lemma browser_state_run (now : T) (s : session B) :
  let b := browser s in
  exists previously : option T,
    _browser_state now s =
      (Ok (header_format (address b) (page_title b)
             (round_elapsed now <$> previously)
             (viewport_current_page b) (Z.of_nat (length (viewport_pages b))),
           viewport b), s)
    /\ match previously with
       | Some t => exists i, is_latest_prior_visit (history b) (address b) i t
       | None => no_prior_visit (history b) (address b)
       end.
Proof.
  intros b. unfold _browser_state.
  unfold mbind at 1. unfold M_bind, M_bind_def, get_state. fold b.
  rewrite range_down_history.
  set (header0 := match page_title b with
                  | Some title => ("Address: " +:+ address b +:+ LF) +:+ "Title: " +:+ title +:+ LF
                  | None => "Address: " +:+ address b +:+ LF
                  end).
  destruct (scan_history_below (history b) (address b) now header0 s
              (length (history b) - 1)%nat) as
    [(i & t & Hi & Hl & Hlast & Hrun)|[Hnone Hrun]]; [lia|..].
  - exists (Some t). unfold mbind, M_bind, M_bind_def. rewrite Hrun. split.
    + unfold mret, M_ret, M_ret_def. do 2 f_equal.
      unfold header_format, previous_visit_line, viewport_line, header0. simpl.
      destruct (page_title b); rewrite <- ?str_app_assoc; reflexivity.
    + exists i. repeat split; [lia | done |].
      intros j a t' Hj Hj' Hl'. eapply Hlast; [|done]. lia.
  - exists None. unfold mbind, M_bind, M_bind_def. rewrite Hrun. split.
    + unfold mret, M_ret, M_ret_def. do 2 f_equal.
      unfold header_format, viewport_line, header0. simpl.
      destruct (page_title b); rewrite <- ?str_app_assoc; reflexivity.
    + intros j a t' Hj Hl'. eapply Hnone; [|done]. lia.
Qed.


(** Stripping the header removes its last line feed and nothing else, so a
    reply [header.strip() + "\n" + rest] starts with the whole header. *)
Lemma strip_header_format (a : string) (title : option string)
    (previously : option Z) (i n : Z) (rest : string) :
  strip (header_format a title previously i n) +:+ LF +:+ rest
  = header_format a title previously i n +:+ rest.
Proof.
  unfold header_format.
  set (tl := match title with Some t => _ | None => _ end).
  set (pl := match previously with Some k => _ | None => _ end).
  set (vp := "Viewport position: Showing page ").
  assert (a +:+ LF +:+ tl +:+ pl +:+ vp +:+ str_of_int (i + 1)
          +:+ " of " +:+ str_of_int n +:+ "." +:+ LF
          = (a +:+ LF +:+ tl +:+ pl +:+ vp +:+ str_of_int (i + 1)
             +:+ " of " +:+ str_of_int n) +:+ "." +:+ LF) as ->
    by (rewrite <- !str_app_assoc; reflexivity).
  rewrite (strip_line_app "Address: " _ "A" "ddress: ") by reflexivity.
  rewrite <- !str_app_assoc. reflexivity.
Qed.

(** What every tool does last: format the state of the browser. *)
Lemma reply_tail (now : T) (s : session B) :
  exists header,
    _browser_state now s = (Ok (header, viewport (browser s)), s)
    /\ forall rest, strip header +:+ LF +:+ rest = header +:+ rest.
Proof.
  destruct (browser_state_run now s) as (previously & Hrun & _).
  eexists. split; [exact Hrun|]. intros rest. apply strip_header_format.
Qed.

End BrowserStateFacts.

Lemma drop_prefix_Some (p s r : string) :
  drop_prefix p s = Some r <-> s = p +:+ r.
Proof.
  revert s. induction p as [|a p IH]; intros s.
  - change ("" +:+ r) with r. destruct s; simpl; split; congruence.
  - destruct s as [|b s]; simpl; [split; discriminate|].
    rewrite str_app_cons. destruct (Ascii.eqb a b) eqn:E.
    + apply Ascii.eqb_eq in E as ->. rewrite IH. split; congruence.
    + apply Ascii.eqb_neq in E. split; [discriminate | congruence].
Qed.

Lemma lazy_until_close_Some (s g : string) :
  lazy_until_close s = Some g ->
  exists post, s = g +:+ ")" +:+ post
               /\ has_char LF_char g = false /\ has_char ")" g = false.
Proof.
  revert g. induction s as [|c s IH]; intros g; simpl; [discriminate|].
  destruct (Ascii.eqb c ")") eqn:Ec.
  - apply Ascii.eqb_eq in Ec as ->. intros [= <-]. by exists s.
  - destruct (Ascii.eqb c LF_char) eqn:El; [discriminate|].
    destruct (lazy_until_close s) as [g'|]; [|discriminate].
    intros [= <-]. destruct (IH g' eq_refl) as (post & -> & Hl & Hp).
    exists post. simpl. by rewrite Ec, El, Hl, Hp.
Qed.

Lemma lazy_until_close_None (s g post : string) :
  lazy_until_close s = None ->
  s = g +:+ ")" +:+ post -> has_char LF_char g = false -> False.
Proof.
  revert g. induction s as [|c s IH]; intros g Hnone Hs Hl.
  - by destruct g.
  - simpl in Hnone. destruct g as [|x g].
    + injection Hs as -> _. discriminate.
    + rewrite str_app_cons in Hs. injection Hs as -> ->.
      simpl in Hl. apply orb_false_elim in Hl as [Hx Hl]. rewrite Hx in Hnone.
      destruct (Ascii.eqb x ")"); [discriminate|].
      destruct (lazy_until_close (g +:+ ")" +:+ post)) eqn:E; [discriminate|].
      by eapply IH.
Qed.

Lemma link_tail_Some (s t : string) :
  link_tail s = Some t ->
  exists g post, s = "](http" +:+ g +:+ ")" +:+ post
                 /\ has_char LF_char g = false /\ has_char ")" g = false
                 /\ t = "http" +:+ g.
Proof.
  unfold link_tail. destruct (drop_prefix "](http" s) as [rest|] eqn:E; [|discriminate].
  apply drop_prefix_Some in E as ->. simpl.
  destruct (lazy_until_close rest) as [g|] eqn:E; [|discriminate].
  intros [= <-]. apply lazy_until_close_Some in E as (post & -> & Hl & Hp).
  by exists g, post.
Qed.

Lemma link_tail_None (s g post : string) :
  link_tail s = None ->
  s = "](http" +:+ g +:+ ")" +:+ post -> has_char LF_char g = false -> False.
Proof.
  unfold link_tail. intros Hnone Hs Hl.
  apply drop_prefix_Some in Hs. rewrite Hs in Hnone. simpl in Hnone.
  destruct (lazy_until_close (g +:+ ")" +:+ post)) eqn:E; [discriminate|].
  by eapply lazy_until_close_None.
Qed.

Lemma after_open_Some (s t : string) :
  after_open s = Some t ->
  exists text g post,
    s = text +:+ "](http" +:+ g +:+ ")" +:+ post
    /\ has_char LF_char text = false
    /\ has_char LF_char g = false /\ has_char ")" g = false
    /\ t = "http" +:+ g
    /\ forall text' g' post',
         s = text' +:+ "](http" +:+ g' +:+ ")" +:+ post' ->
         has_char LF_char g' = false ->
         (String.length text <= String.length text')%nat.
Proof.
  revert t. induction s as [|c s IH]; intros t.
  - simpl. discriminate.
  - simpl after_open. destruct (link_tail (String c s)) as [t'|] eqn:E.
    + intros [= <-]. apply link_tail_Some in E as (g & post & Hs & Hl & Hp & ->).
      exists "", g, post. repeat split; try done. intros; simpl; lia.
    + destruct (Ascii.eqb c LF_char) eqn:El; [discriminate|].
      intros Hs. destruct (IH t Hs) as (text & g & post & -> & Ht & Hl & Hp & -> & Hmin).
      exists (String c text), g, post. repeat split; try done.
      * simpl. by rewrite El, Ht.
      * intros [|x text'] g' post' Hs' Hl'.
        -- exfalso. by eapply link_tail_None.
        -- rewrite str_app_cons in Hs'. injection Hs' as _ Hs'.
           simpl. apply le_n_S. by eapply Hmin.
Qed.

Lemma after_open_None (s text g post : string) :
  after_open s = None ->
  s = text +:+ "](http" +:+ g +:+ ")" +:+ post ->
  has_char LF_char text = false -> has_char LF_char g = false -> False.
Proof.
  revert text. induction s as [|c s IH]; intros text Hnone Hs Ht Hl.
  - by destruct text.
  - simpl after_open in Hnone.
    destruct (link_tail (String c s)) eqn:E; [discriminate|].
    destruct text as [|x text].
    + by eapply link_tail_None.
    + rewrite str_app_cons in Hs. injection Hs as -> ->.
      simpl in Ht. apply orb_false_elim in Ht as [Hx Ht].
      rewrite Hx in Hnone. by eapply IH.
Qed.

(** The search answers the target of the first link. *)
Lemma re_search_link_Some (content t : string) :
  re_search_link content = Some t -> first_link_target content t.
Proof.
  revert t. induction content as [|c s IH]; intros t; [discriminate|].
  simpl. destruct (if Ascii.eqb c "[" then after_open s else None) as [t'|] eqn:E.
  - intros [= <-]. destruct (Ascii.eqb c "[") eqn:Ec; [|discriminate].
    apply Ascii.eqb_eq in Ec as ->.
    apply after_open_Some in E as (text & g & post & -> & Ht & Hl & Hp & -> & Hmin).
    exists "", text, g, post. repeat split; try done.
    intros [|x pre'] text' g' post' (Hs & Ht' & Hl'); [right | left; simpl; lia].
    split; [done|]. injection Hs as Hs. by eapply Hmin.
  - intros Hs. destruct (IH t Hs) as (pre & text & g & post & (-> & Ht & Hl) & -> & Hp & Hmin).
    exists (String c pre), text, g, post. repeat split; try done.
    intros [|x pre'] text' g' post' (Hs' & Ht' & Hl').
    + exfalso. injection Hs' as -> Hs'. simpl in E.
      by eapply after_open_None.
    + rewrite str_app_cons in Hs'. injection Hs' as _ Hs'.
      destruct (Hmin pre' text' g' post') as [Hlt|[Heq Hle]]; [done|..].
      * left. simpl. lia.
      * right. simpl. lia.
Qed.

(** The search fails when there is no link. *)
Lemma re_search_link_None (content : string) :
  re_search_link content = None -> no_link content.
Proof.
  induction content as [|c s IH]; intros Hnone pre text g post (Hs & Ht & Hl).
  - by destruct pre.
  - simpl in Hnone.
    destruct (if Ascii.eqb c "[" then after_open s else None) eqn:E; [discriminate|].
    destruct pre as [|x pre].
    + injection Hs as -> Hs. simpl in E. by eapply after_open_None.
    + rewrite str_app_cons in Hs. injection Hs as _ Hs.
      by eapply (IH Hnone pre text g post).
Qed.





(** The search, in the words of the specification. *)
Lemma re_search_link_spec (content : string) :
  match re_search_link content with
  | Some t => first_link_target content t
  | None => no_link content
  end.
Proof.
  destruct (re_search_link content) eqn:E.
  - by apply re_search_link_Some.
  - by apply re_search_link_None.
Qed.

(** * The browsing tools *)

Section ToolFacts.
Context {T B : Type} `{TextBrowser T B} `{Clock T}.

(** The reply for the state [s] of the session: header, separator line,
    viewport. *)
Lemma format_reply_run (now : T) (s : session B) :
  exists header,
    _browser_state now s = (Ok (header, viewport (browser s)), s)
    /\ (forall rest, strip header +:+ LF +:+ rest = header +:+ rest)
    /\ ('(header, content) ← _browser_state now;
        mret (strip header +:+ separator +:+ content)) s
       = (Ok (strip header +:+ separator +:+ viewport (browser s)), s).
Proof.
  destruct (reply_tail now s) as (header & Hrun & Hstrip).
  exists header. split; [done|]. split; [done|].
  unfold mbind, M_bind, M_bind_def. by rewrite Hrun.
Qed.

(** Either handler moves the browser to the address and answers header,
    separator line and viewport. *)
Lemma visit_page_run (url : string) (now : T) (s : session B) :
  let s' := with_browser (visit_page url (browser s)) s in
  exists header,
    _browser_state now s' = (Ok (header, viewport (browser s')), s')
    /\ _visit_page url now s
       = (Ok (strip header +:+ separator +:+ viewport (browser s')), s').
Proof.
  intros s'. destruct (format_reply_run now s') as (header & Hrun & _ & Htail).
  exists header. split; [done|]. exact Htail.
Qed.

(** C9. The handler registered as [visit_page] and the one registered as
    [download_file] answer the same and leave the same state: the browser
    moved to the address, and the header and content of that page
    answered. *)
Theorem visit_page_download_file_same (url : string) (now : T) (s : session B) :
  _visit_page url now s = _visit_page_download_file url now s
  /\ let s' := with_browser (visit_page url (browser s)) s in
     exists header,
       _browser_state now s' = (Ok (header, viewport (browser s')), s')
       /\ _visit_page_download_file url now s
          = (Ok (strip header +:+ separator +:+ viewport (browser s')), s').
Proof. split; [reflexivity | apply visit_page_run]. Qed.


(** C8. When the browser finds nothing, the reply of [find_on_page_ctrl_f]
    is the whole header, the separator line and a notice that quotes the
    search string; the reply of [find_next] is the whole header, the
    separator line and a fixed notice, which names no search string. *)
Theorem find_not_found_replies (now : T) (s : session B) :
  (forall search_string b',
     find_on_page search_string (browser s) = (None, b') ->
     exists header reply,
       _browser_state now (with_browser b' s)
         = (Ok (header, viewport b'), with_browser b' s)
       /\ _find_on_page_ctrl_f search_string now s = (Ok reply, with_browser b' s)
       /\ reply = header +:+ "=======================" +:+ LF
                  +:+ "The search string '" +:+ search_string
                  +:+ "' was not found on this page."
       /\ is_prefix_of header reply
       /\ occurs_in search_string reply)
  /\ (forall b',
       find_next (browser s) = (None, b') ->
       exists header reply,
         _browser_state now (with_browser b' s)
           = (Ok (header, viewport b'), with_browser b' s)
         /\ _find_next now s = (Ok reply, with_browser b' s)
         /\ reply = header +:+ "=======================" +:+ LF
                    +:+ "The search string was not found on this page."
         /\ is_prefix_of header reply).
Proof.
  split.
  - intros search_string b' Hfind.
    destruct (reply_tail now (with_browser b' s)) as (header & Hrun & Hstrip).
    exists header. eexists. split; [exact Hrun|]. split; [|split; [|split]].
    + unfold _find_on_page_ctrl_f, browser_find_on_page.
      unfold mbind, M_bind, M_bind_def, call. rewrite Hfind.
      fold (with_browser b' s). rewrite Hrun. rewrite Hstrip. reflexivity.
    + reflexivity.
    + by eexists.
    + exists (header +:+ "=======================" +:+ LF +:+ "The search string '"),
        "' was not found on this page.".
      rewrite <- !str_app_assoc. reflexivity.
  - intros b' Hfind.
    destruct (reply_tail now (with_browser b' s)) as (header & Hrun & Hstrip).
    exists header. eexists. split; [exact Hrun|]. split; [|split].
    + unfold _find_next, browser_find_next.
      unfold mbind, M_bind, M_bind_def, call. rewrite Hfind.
      fold (with_browser b' s). rewrite Hrun. rewrite Hstrip. reflexivity.
    + reflexivity.
    + by eexists.
Qed.

End ToolFacts.

(** * The summarization buffer *)

Lemma concat_cons (x : string) (l : list string) :
  PyStr.concat (x :: l) = x +:+ PyStr.concat l.
Proof. reflexivity. Qed.

Lemma concat_take_drop (k : nat) (l : list string) :
  PyStr.concat l = PyStr.concat (take k l) +:+ PyStr.concat (drop k l).
Proof.
  revert k. induction l as [|x l IH]; intros [|k]; try reflexivity.
  simpl take. simpl drop. rewrite !concat_cons, (IH k).
  by rewrite str_app_assoc.
Qed.

(** The pieces of a split put together again give the text. *)
Lemma concat_re_split_go (in_sep : bool) (cur s : string) :
  PyStr.concat (re_split_go in_sep cur s) = cur +:+ s.
Proof.
  revert in_sep cur. induction s as [|c s IH]; intros in_sep cur.
  - destruct in_sep; reflexivity.
  - simpl re_split_go. destruct (is_line_break c), in_sep;
      rewrite ?concat_cons, IH, <- ?str_app_assoc; reflexivity.
Qed.

Lemma concat_re_split (s : string) :
  PyStr.concat (re_split_line_breaks s) = s.
Proof. apply concat_re_split_go. Qed.



Section BufferFacts.
Context `{TokenCounter}.

(** The loop appends pieces while the count with the next piece and the
    headroom fits, and stops before the first piece that does not fit. *)
Lemma fill_buffer_spec (limit : Z) (buffer : string) (lines : list string) :
  exists k,
    (k <= length lines)%nat
    /\ fill_buffer limit buffer lines = buffer +:+ PyStr.concat (take k lines)
    /\ (forall j, (j < k)%nat ->
          count_token (buffer +:+ PyStr.concat (take (S j) lines)) + 1024 <= limit)
    /\ ((k < length lines)%nat ->
        count_token (buffer +:+ PyStr.concat (take (S k) lines)) + 1024 > limit).
Proof.
  revert buffer. induction lines as [|line rest IH]; intros buffer.
  - exists 0%nat. simpl. rewrite str_app_nil_r. repeat split; intros; lia.
  - simpl fill_buffer.
    destruct (count_token (buffer +:+ line) + 1024 >? limit) eqn:E.
    + exists 0%nat. simpl. rewrite !str_app_nil_r.
      repeat split; [lia | intros; lia | intros _; lia].
    + destruct (IH (buffer +:+ line)) as (k & Hk & Hfill & Hfit & Hstop).
      exists (S k). simpl length. simpl take. rewrite concat_cons.
      rewrite str_app_assoc. repeat split; [lia | done | |].
      * intros [|j] Hj.
        -- simpl. rewrite str_app_nil_r. lia.
        -- simpl take. rewrite concat_cons, str_app_assoc. apply Hfit. lia.
      * intros Hlt. simpl take. rewrite concat_cons, str_app_assoc.
        apply Hstop. lia.
Qed.

End BufferFacts.

Section SummarizeFacts.
Context {T B : Type} `{TextBrowser T B} `{TokenCounter} `{SummarizationClient}.

Lemma raw_buffer_spec (content : string) :
  let pieces := re_split_line_breaks content in
  exists k,
    (k <= length pieces)%nat
    /\ raw_buffer content = PyStr.concat (take k pieces)
    /\ (forall j, (j < k)%nat ->
          count_token (PyStr.concat (take (S j) pieces)) + 1024 <= 32000)
    /\ ((k < length pieces)%nat ->
        count_token (PyStr.concat (take (S k) pieces)) + 1024 > 32000).
Proof.
  intros pieces.
  destruct (fill_buffer_spec limit "" pieces) as (k & Hk & Hfill & Hfit & Hstop).
  exists k. repeat split; assumption.
Qed.

Lemma read_page_and_answer_run (question url : option string) (s : session B) :
  let b := page_read url (browser s) in
  let buffer := summarization_buffer (page_content b) in
  _read_page_and_answer question url s =
    if len buffer =? 0 then (Ok "Nothing to summarize.", with_browser b s)
    else (Ok (create_and_extract (summarizer_messages question buffer)),
          {| browser := b;
             summarizer_calls :=
               summarizer_calls s ++ [summarizer_messages question buffer] |}).
Proof.
  intros b buffer. subst b buffer. unfold _read_page_and_answer, page_read.
  unfold mbind at 1 2 3. unfold M_bind, M_bind_def, get_state.
  destruct s as [b0 calls]. simpl.
  destruct url as [u|]; [destruct (negb (String.eqb u (address b0)))|];
    simpl; unfold summarization_buffer;
    match goal with |- context [len ?x =? 0] => destruct (len x =? 0) end;
    reflexivity.
Qed.



(** The buffer handed to the summarization client is the one the loop
    leaves with the whitespace at both ends stripped, so it never ends with
    whitespace. *)
Lemma summarization_buffer_last (content x : string) (c : ascii) :
  summarization_buffer content = x +:+ String c "" -> is_space c = false.
Proof. apply strip_last. Qed.


End SummarizeFacts.

(** At a thousand tokens a character the budget is thirty characters: of
    four lines of ten, two are taken with their line feeds, and the third
    is left out whole. *)
Example raw_buffer_two_of_four_lines :
  @raw_buffer heavy_counter four_lines
  = "0123456789" +:+ LF +:+ "0123456789" +:+ LF.
Proof. vm_compute. reflexivity. Qed.


(** * Construction of the agent *)

Section ConstructionFacts.
Context `{OpenAIUtils}.

(** [_create_summarizer_client], by the configuration it resolves. *)
Lemma create_summarizer_client_run (summarizer_arg llm_config : llm_config_t)
    (a : agent) :
  _create_summarizer_client summarizer_arg llm_config a =
    match summarizer_arg, llm_config with
    | CfgNone, CfgNone =>
        (Raise (TypeError "argument after ** must be a mapping, not NoneType"),
         configured CfgNone (summarization_client a) [] a)
    | CfgNone, CfgFalse | CfgFalse, _ => (Ok tt, configured CfgFalse None [] a)
    | CfgNone, CfgDict d =>
        match d !! "config_list" with
        | Some config_list =>
            match filter_config config_list preferred_filter with
            | [] =>
                (Ok tt, configured (CfgDict d) (Some (OpenAIWrapper d))
                          [summarizer_warning] a)
            | preferred =>
                let d' := <["config_list" := PList preferred]> d in
                (Ok tt, configured (CfgDict d') (Some (OpenAIWrapper d')) [] a)
            end
        | None => (Ok tt, configured (CfgDict d) (Some (OpenAIWrapper d)) [] a)
        end
    | CfgDict d, _ => (Ok tt, configured (CfgDict d) (Some (OpenAIWrapper d)) [] a)
    end.
Proof.
  unfold _create_summarizer_client, configured.
  destruct a as [cfg0 client0 reg0 warn0].
  destruct summarizer_arg as [| |d], llm_config as [| |d'];
    try (cbn; rewrite ?app_nil_r; reflexivity).
  destruct (d' !! "config_list") as [config_list|] eqn:E.
  - destruct (filter_config config_list preferred_filter) as [|x l] eqn:F.
    + reflexivity.
    + cbn. rewrite ?app_nil_r. reflexivity.
  - cbn. rewrite ?app_nil_r. reflexivity.
Qed.

Lemma register_functions_run (a : agent) :
  _register_functions a =
    (Ok tt,
     {| summarizer_llm_config := summarizer_llm_config a;
        summarization_client := summarization_client a;
        registered :=
          registered a ++ browsing_tools
          ++ match summarization_client a with
             | Some _ => summarization_tools
             | None => []
             end;
        warnings := warnings a |}).
Proof.
  destruct a as [cfg [c|] reg warn]; cbv - [app];
    rewrite <- ?app_assoc, ?app_nil_r; reflexivity.
Qed.

Lemma init_run (llm_config summarizer_arg : llm_config_t) (a : agent) :
  __init__ llm_config summarizer_arg a =
    match _create_summarizer_client summarizer_arg llm_config a with
    | (Ok _, a') =>
        match llm_config with
        | CfgDict _ => _register_functions a'
        | _ => (Ok tt, a')
        end
    | (Raise e, a') => (Raise e, a')
    end.
Proof.
  unfold __init__, mbind, M_bind, M_bind_def.
  destruct (_create_summarizer_client summarizer_arg llm_config a) as [[[]|e] a'];
    [destruct llm_config|]; reflexivity.
Qed.

(** C6. With no summarizer configuration given and a model configuration
    that holds a [config_list], the list is filtered by the preferred
    models. If nothing passes the filter the configuration is kept as it
    is, the warning is logged, and the client is built from the unfiltered
    configuration; otherwise the filtered list replaces the list. In both
    cases construction succeeds. *)
Theorem summarizer_config_selection (d : gmap string pyval) (config_list : pyval)
    (a : agent) :
  d !! "config_list" = Some config_list ->
  let preferred := filter_config config_list preferred_filter in
  (preferred = [] ->
     _create_summarizer_client CfgNone (CfgDict d) a
     = (Ok tt, configured (CfgDict d) (Some (OpenAIWrapper d))
                 [summarizer_warning] a)
     /\ fst (__init__ (CfgDict d) CfgNone a) = Ok tt
     /\ warnings (snd (__init__ (CfgDict d) CfgNone a))
        = warnings a ++ [summarizer_warning])
  /\ (preferred <> [] ->
      let d' := <["config_list" := PList preferred]> d in
      _create_summarizer_client CfgNone (CfgDict d) a
      = (Ok tt, configured (CfgDict d') (Some (OpenAIWrapper d')) [] a)
      /\ fst (__init__ (CfgDict d) CfgNone a) = Ok tt
      /\ warnings (snd (__init__ (CfgDict d) CfgNone a)) = warnings a)
  /\ occurs_in "might be costly or ineffective" summarizer_warning.
Proof.
  intros Hd preferred.
  pose proof (create_summarizer_client_run CfgNone (CfgDict d) a) as Hrun.
  pose proof (init_run (CfgDict d) CfgNone a) as Hinit.
  cbv beta iota in Hrun. rewrite Hd in Hrun. fold preferred in Hrun.
  split; [|split].
  - intros E. rewrite E in Hrun. rewrite Hrun in Hinit.
    cbv beta iota in Hinit. rewrite register_functions_run in Hinit.
    rewrite Hinit. by repeat split.
  - intros Hne d'. destruct preferred as [|x l] eqn:E; [done|].
    rewrite Hrun in Hinit. cbv beta iota zeta in Hinit.
    rewrite register_functions_run in Hinit.
    rewrite Hinit. repeat split; [done|]. simpl. apply app_nil_r.
  - exists ("The summarizer did not find the preferred model (gpt-3.5-turbo-16k) "
            +:+ "in the config list. Semantic operations on webpages "
            +:+ "(summarization or Q&A) "), ".".
    reflexivity.
Qed.

Ltac run_init :=
  rewrite init_run, create_summarizer_client_run; cbv beta iota zeta;
  repeat match goal with
         | |- context [match ?d !! "config_list" with _ => _ end] =>
             destruct (d !! "config_list")
         | |- context [match filter_config ?x ?y with _ => _ end] =>
             destruct (filter_config x y)
         end;
  cbv beta iota zeta; rewrite ?register_functions_run.

(** C10, amended. With both configurations [None], the summarizer
    configuration is set to [None] and the construction of the client from
    it raises. A constructed agent has no summarization client exactly when
    the summarizer configuration given is [False], or it is [None] and the
    model configuration is [False]; no summarization tool is registered
    then. *)
Theorem no_summarization_client_ways (llm_config summarizer_arg : llm_config_t)
    (a : agent) :
  __init__ CfgNone CfgNone a
  = (Raise (TypeError "argument after ** must be a mapping, not NoneType"),
     configured CfgNone (summarization_client a) [] a)
  /\ (fst (__init__ llm_config summarizer_arg a) = Ok tt
      /\ summarization_client (snd (__init__ llm_config summarizer_arg a)) = None
      <-> summarizer_arg = CfgFalse
          \/ (summarizer_arg = CfgNone /\ llm_config = CfgFalse))
  /\ (summarizer_arg = CfgFalse
      \/ (summarizer_arg = CfgNone /\ llm_config = CfgFalse) ->
      registered (snd (__init__ llm_config summarizer_arg a))
      = registered a ++ match llm_config with
                        | CfgDict _ => browsing_tools
                        | _ => []
                        end).
Proof.
  split; [|split].
  - by rewrite init_run, create_summarizer_client_run.
  - destruct summarizer_arg as [| |d], llm_config as [| |d']; run_init;
      (split;
       [ intros [Hok Hnone];
         first [ by left | by right | discriminate Hok | discriminate Hnone ]
       | intros [E|[E1 E2]]; first [ discriminate | by split ] ]).
  - intros [->|[-> ->]]; [destruct llm_config|]; run_init; simpl;
      by rewrite ?app_nil_r.
Qed.

End ConstructionFacts.

(** A list without a preferred model is kept, with the warning. *)
Lemma summarizer_config_selection_witness :
  let d : gmap string pyval := {[ "config_list" := PList [gpt4_config] ]} in
  _create_summarizer_client CfgNone (CfgDict d) blank
  = (Ok tt, configured (CfgDict d) (Some (OpenAIWrapper d))
              [summarizer_warning] blank)
  /\ fst (__init__ (CfgDict d) CfgNone blank) = Ok tt
  /\ warnings (snd (__init__ (CfgDict d) CfgNone blank))
     = warnings blank ++ [summarizer_warning].
Proof.
  intros d.
  apply (proj1 (summarizer_config_selection d (PList [gpt4_config]) blank eq_refl)).
  reflexivity.
Defined.

(** C10 as stated fails: with the model configuration [False] and the
    summarizer configuration left [None], construction succeeds, there is
    no summarization client and no tool is registered. *)
Lemma no_summarization_client_counterexample :
  let r := __init__ CfgFalse CfgNone blank in
  fst r = Ok tt
  /\ summarization_client (snd r) = None
  /\ registered (snd r) = []
  /\ CfgNone <> CfgFalse.
Proof. repeat split. discriminate. Qed.

(** With the models switched off no tool is registered. *)
Lemma no_summarization_client_ways_witness :
  registered (snd (__init__ CfgFalse CfgNone blank)) = registered blank ++ [].
Proof.
  apply (proj2 (proj2 (no_summarization_client_ways CfgFalse CfgNone blank))).
  right. split; reflexivity.
Defined.

(** * The reply of a turn *)

Section RelayFacts.
Context {T B W : Type} `{TextBrowser T B} `{InnerAgents B W}.

(** A turn whose last inbound message has a content and whose assistant
    has left a message gets as far as the choice between the two replies. *)
Lemma generate_surfer_reply_run (messages : option (list pyval))
    (sender : option Agent) (w : W) (d : gmap string pyval)
    (content agent_reply : pyval) :
  let inbound :=
    match messages with
    | None => _oai_messages sender w
    | Some m => m
    end in
  last inbound = Some (PDict d) ->
  d !! "content" = Some content ->
  let w2 := dispatched inbound content w in
  last (_user_proxy_chat_messages w2) = Some agent_reply ->
  let r := _user_proxy_generate_reply (_user_proxy_chat_messages w2) w2 in
  generate_surfer_reply messages sender w = resolve agent_reply (fst r) (snd r).
Proof.
  intros inbound Hlast Hcontent w2 Hagent r.
  unfold generate_surfer_reply. fold inbound. unfold index_last.
  step_M. fold inbound. rewrite Hlast. step_M.
  unfold subscript at 1. rewrite Hcontent. step_M.
  subst w2 r. unfold dispatched in Hagent |- *. cbv zeta in Hagent |- *.
  rewrite Hagent.
  by destruct (_user_proxy_generate_reply _ _).
Qed.

(** C1. When the reply of the user proxy is the empty string, the answer
    of the turn is the content of the message the assistant left, and
    [None] if that message is [None]; otherwise it is the content of the
    reply of the user proxy, and [None] if that reply is [None]. A content
    that is [None] is answered as [None]. Nothing is raised. *)
Theorem surfer_reply_resolution (messages : option (list pyval))
    (sender : option Agent) (w : W) (d : gmap string pyval)
    (content agent_reply : pyval) :
  let inbound :=
    match messages with
    | None => _oai_messages sender w
    | Some m => m
    end in
  last inbound = Some (PDict d) ->
  d !! "content" = Some content ->
  let w2 := dispatched inbound content w in
  last (_user_proxy_chat_messages w2) = Some agent_reply ->
  let proxy_reply :=
    fst (_user_proxy_generate_reply (_user_proxy_chat_messages w2) w2) in
  let w3 := snd (_user_proxy_generate_reply (_user_proxy_chat_messages w2) w2) in
  let answer := generate_surfer_reply messages sender w in
  (proxy_reply = PStr "" ->
     (agent_reply = PNone -> answer = (Ok (true, PNone), w3))
     /\ (forall da c, agent_reply = PDict da -> da !! "content" = Some c ->
          answer = (Ok (true, c), w3)))
  /\ (proxy_reply = PNone -> answer = (Ok (true, PNone), w3))
  /\ (forall dp c, proxy_reply = PDict dp -> dp !! "content" = Some c ->
       answer = (Ok (true, c), w3)).
Proof.
  intros inbound Hlast Hcontent w2 Hagent proxy_reply w3 answer.
  assert (answer = resolve agent_reply proxy_reply w3) as ->
    by (by apply generate_surfer_reply_run with (d := d) (content := content)).
  unfold resolve. split; [|split].
  - intros ->. split.
    + by intros ->.
    + intros da c -> Hc. simpl.
      unfold mbind, M_bind, M_bind_def, subscript. by rewrite Hc.
  - by intros ->.
  - intros dp c -> Hc. simpl.
    unfold mbind, M_bind, M_bind_def, subscript. by rewrite Hc.
Qed.

(** A reply of the user proxy that is a string other than the empty one
    has no content to answer: subscripting it raises. *)
Lemma resolve_string_reply (agent_reply : pyval) (c : ascii) (text : string)
    (w : W) :
  resolve agent_reply (PStr (String c text)) w
  = (Raise (TypeError "string indices must be integers"), w).
Proof. reflexivity. Qed.

End RelayFacts.

(** An empty reply of the user proxy and an assistant message whose content
    is [None]: the turn answers [None]. *)
Lemma surfer_reply_resolution_witness :
  generate_surfer_reply (Some [user_message "hi"]) None
    (toy_world (PDict {[ "content" := PNone ]}) (PStr ""))
  = (Ok (true, PNone),
     dispatched [user_message "hi"] (PStr "hi")
       (toy_world (PDict {[ "content" := PNone ]}) (PStr ""))).
Proof.
  refine (proj2 (proj1 (surfer_reply_resolution (Some [user_message "hi"]) None
            (toy_world (PDict {[ "content" := PNone ]}) (PStr ""))
            {[ "content" := PStr "hi"; "role" := PStr "user" ]}
            (PStr "hi") (PDict {[ "content" := PNone ]}) _ _ _) _)
            {[ "content" := PNone ]} PNone _ _);
    reflexivity.
Defined.




(** A search string the start page does not hold. *)
Lemma find_not_found_replies_witness :
  exists header reply,
    _browser_state 25 (with_browser start_page (fresh start_page))
    = (Ok (header, viewport start_page), with_browser start_page (fresh start_page))
    /\ _find_on_page_ctrl_f "zzz-not-present" 25 (fresh start_page)
       = (Ok reply, with_browser start_page (fresh start_page))
    /\ reply = header +:+ "=======================" +:+ LF
               +:+ "The search string '" +:+ "zzz-not-present"
               +:+ "' was not found on this page."
    /\ is_prefix_of header reply
    /\ occurs_in "zzz-not-present" reply.
Proof.
  apply (proj1 (find_not_found_replies 25 (fresh start_page))
           "zzz-not-present" start_page).
  reflexivity.
Defined.

(** * Further properties of the backend selection *)

(** X1. Whenever the factory returns a cache, it has constructed that
    cache and no other on the way. *)
Theorem cache_factory_one_construction (env : environment) (seed : seed_t)
    (redis_url : option string) (cache_path_root : string)
    (cosmosdb_config : option (gmap string pyval)) (c : cache) :
  fst (run (cache_factory env seed redis_url cache_path_root cosmosdb_config))
  = Ok c ->
  constructed
    (snd (run (cache_factory env seed redis_url cache_path_root
                 cosmosdb_config)))
  = [c].
Proof.
  rewrite cache_factory_cases.
  destruct (redis_usable env redis_url), (truthy redis_url),
    (cosmos_usable env cosmosdb_config), (cosmos_complete cosmosdb_config);
    simpl; by intros [= <-].
Qed.

(** A Cosmos cache behind a Redis client that does not import. *)
Lemma cache_factory_one_construction_witness :
  constructed
    (snd (run (cache_factory
                 {| redis_cache_available := false;
                    cosmos_db_cache_available := true |}
                 (SeedStr "s") (Some "redis://localhost:6379/0") ".cache"
                 (Some full_cosmos_config))))
  = [CosmosDBCache (SeedStr "s") full_cosmos_config].
Proof.
  apply (cache_factory_one_construction
           {| redis_cache_available := false; cosmos_db_cache_available := true |}
           (SeedStr "s") (Some "redis://localhost:6379/0") ".cache"
           (Some full_cosmos_config)).
  vm_compute. reflexivity.
Defined.

(** X2. An empty string given as the Redis URL counts as no URL: nothing is
    imported or logged for Redis, and the run is the one without a URL. *)
Theorem cache_factory_empty_url (env : environment) (seed : seed_t)
    (cache_path_root : string) (cosmosdb_config : option (gmap string pyval)) :
  run (cache_factory env seed (Some "") cache_path_root cosmosdb_config)
  = run (cache_factory env seed None cache_path_root cosmosdb_config).
Proof. rewrite !cache_factory_cases. reflexivity. Qed.

(** X3. A Cosmos configuration that lacks one of the three keys is passed
    over in silence: the run is the one without a Cosmos configuration, so
    nothing is imported for Cosmos and no warning is logged for it. *)
Theorem cache_factory_incomplete_cosmos (env : environment) (seed : seed_t)
    (redis_url : option string) (cache_path_root : string)
    (d : gmap string pyval) (k : string) :
  In k required_keys ->
  d !! k = None ->
  run (cache_factory env seed redis_url cache_path_root (Some d))
  = run (cache_factory env seed redis_url cache_path_root None).
Proof.
  intros Hk Hd.
  assert (cosmos_complete (Some d) = false) as E.
  { destruct (cosmos_complete (Some d)) eqn:E; [|done].
    apply cosmos_complete_keys in E as (d' & [= <-] & Hc & Hdb & Hct).
    simpl in Hk. destruct Hk as [<-|[<-|[<-|[]]]]; rewrite Hd in *;
      by match goal with H : is_Some None |- _ => destruct H end. }
  rewrite !cache_factory_cases. unfold cosmos_usable. rewrite E. reflexivity.
Qed.

(** With every library at hand, a configuration without its container ends
    on the disk. *)
Lemma cache_factory_incomplete_cosmos_witness :
  run (cache_factory all_available (SeedStr "s") None ".cache"
         (Some partial_cosmos_config))
  = run (cache_factory all_available (SeedStr "s") None ".cache" None).
Proof.
  apply (cache_factory_incomplete_cosmos all_available (SeedStr "s") None
           ".cache" partial_cosmos_config "container_id").
  - simpl. auto.
  - reflexivity.
Defined.

(** X4. The warning on Redis is logged exactly when a URL is given and the
    Redis client does not import; the warning on Cosmos exactly when Redis
    gave no cache, the configuration is complete and the Cosmos client does
    not import. *)
Theorem cache_factory_warnings (env : environment) (seed : seed_t)
    (redis_url : option string) (cache_path_root : string)
    (cosmosdb_config : option (gmap string pyval)) :
  let l := snd (run (cache_factory env seed redis_url cache_path_root
                       cosmosdb_config)) in
  (In (Warning redis_warning) l
   <-> truthy redis_url = true /\ redis_cache_available env = false)
  /\ (In (Warning cosmos_warning) l
      <-> redis_usable env redis_url = false
          /\ cosmos_complete cosmosdb_config = true
          /\ cosmos_db_cache_available env = false).
Proof.
  intros l. subst l. rewrite cache_factory_cases.
  unfold redis_usable, cosmos_usable, redis_warning, cosmos_warning.
  destruct (truthy redis_url), (redis_cache_available env),
    (cosmos_complete cosmosdb_config), (cosmos_db_cache_available env);
    simpl; intuition congruence.
Qed.

(** X5. Under one root, two seeds name the same directory exactly when they
    are formatted alike; so two different integer seeds never share a
    directory, while the integer 42 and the string of its digits do. *)
Theorem disk_path_seed (cache_path_root : string) (s1 s2 : seed_t) :
  (disk_path cache_path_root s1 = disk_path cache_path_root s2
   <-> format_seed s1 = format_seed s2)
  /\ (forall a b : Z,
        disk_path cache_path_root (SeedInt a)
        = disk_path cache_path_root (SeedInt b) <-> a = b)
  /\ forall a : Z,
       disk_path cache_path_root (SeedInt a)
       = disk_path cache_path_root (SeedStr (str_of_int a)).
Proof.
  assert (forall x y, disk_path cache_path_root x = disk_path cache_path_root y
                      <-> format_seed x = format_seed y) as Hiff.
  { intros x y. unfold disk_path. split; [|by intros ->].
    intros Heq. by do 3 apply String.app_inj in Heq. }
  split; [apply Hiff|]. split.
  - intros a b. rewrite Hiff. simpl. unfold str_of_int. split; [|by intros ->].
    apply pretty_Z_inj.
  - reflexivity.
Qed.

(** * Further properties of the construction *)

(** Runs [__init__] in the goal, one case of the configuration after the
    other. *)
Ltac run_construction :=
  rewrite ?init_run, ?create_summarizer_client_run; cbv beta iota zeta;
  repeat match goal with
         | |- context [match ?d !! "config_list" with _ => _ end] =>
             destruct (d !! "config_list")
         | |- context [match filter_config ?x ?y with _ => _ end] =>
             destruct (filter_config x y)
         end;
  cbv beta iota zeta; rewrite ?register_functions_run.

(** X6. The filter and the warning belong to one case only: no summarizer
    configuration given and a model configuration that holds a
    [config_list]. In every other case the outcome is the same whatever the
    filter, and nothing is logged; in particular a summarizer configuration
    given by the caller is used as it is. *)
Theorem summarizer_filter_only_for_config_list (u1 u2 : OpenAIUtils)
    (summarizer_arg llm_config : llm_config_t) (a : agent) :
  (forall d config_list, summarizer_arg = CfgNone -> llm_config = CfgDict d ->
     d !! "config_list" = Some config_list -> False) ->
  @_create_summarizer_client u1 summarizer_arg llm_config a
  = @_create_summarizer_client u2 summarizer_arg llm_config a
  /\ warnings (snd (@_create_summarizer_client u1 summarizer_arg llm_config a))
     = warnings a
  /\ forall d, summarizer_arg = CfgDict d ->
       @_create_summarizer_client u1 summarizer_arg llm_config a
       = (Ok tt, configured (CfgDict d) (Some (OpenAIWrapper d)) [] a).
Proof.
  intros Hcase.
  rewrite (@create_summarizer_client_run u1), (@create_summarizer_client_run u2).
  destruct summarizer_arg as [| |ds], llm_config as [| |d];
    try (repeat split; simpl; rewrite ?app_nil_r; try done; by intros ? [= <-]).
  destruct (d !! "config_list") as [config_list|] eqn:E.
  - by destruct (Hcase d config_list).
  - repeat split; simpl; rewrite ?app_nil_r; done.
Qed.

(** A summarizer configuration of the caller's, none of whose models is a
    preferred one, under two filters. *)
Lemma summarizer_filter_only_for_config_list_witness :
  let own := CfgDict {[ "config_list" := PList [gpt4_config] ]} in
  @_create_summarizer_client toy_OpenAIUtils own CfgNone blank
  = @_create_summarizer_client reject_all own CfgNone blank
  /\ warnings (snd (@_create_summarizer_client toy_OpenAIUtils own CfgNone blank))
     = warnings blank
  /\ forall d, own = CfgDict d ->
       @_create_summarizer_client toy_OpenAIUtils own CfgNone blank
       = (Ok tt, configured (CfgDict d) (Some (OpenAIWrapper d)) [] blank).
Proof.
  intros own.
  apply (summarizer_filter_only_for_config_list toy_OpenAIUtils reject_all
           own CfgNone blank).
  intros d config_list Hown. discriminate Hown.
Defined.

Section ConstructionCoverage.
Context `{OpenAIUtils}.

(** X8. The tools a construction registers, in order: none unless the model
    configuration is a dict; then the eight browsing tools, followed by the
    two summarization tools unless the summarizer configuration is
    [False]. A summarizer configuration alone registers nothing. *)
Theorem init_registered_tools (llm_config summarizer_arg : llm_config_t)
    (a : agent) :
  registered (snd (__init__ llm_config summarizer_arg a))
  = registered a ++ registered_by llm_config summarizer_arg.
Proof.
  destruct summarizer_arg as [| |ds], llm_config as [| |d]; run_construction;
    simpl; rewrite ?app_nil_r; reflexivity.
Qed.

(** X9. When [_create_summarizer_client] returns, the client and the
    configuration it has stored agree: the configuration is [False] and
    there is no client, or it is a dict and the client was built from that
    very dict. It is never left [None]. *)
Theorem summarizer_client_matches_config (summarizer_arg llm_config : llm_config_t)
    (a : agent) :
  fst (_create_summarizer_client summarizer_arg llm_config a) = Ok tt ->
  let a' := snd (_create_summarizer_client summarizer_arg llm_config a) in
  summarization_client a' = client_of (summarizer_llm_config a')
  /\ summarizer_llm_config a' <> CfgNone.
Proof.
  rewrite create_summarizer_client_run.
  destruct summarizer_arg as [| |ds], llm_config as [| |d]; cbv beta iota zeta;
    repeat match goal with
           | |- context [match ?d !! "config_list" with _ => _ end] =>
               destruct (d !! "config_list")
           | |- context [match filter_config ?x ?y with _ => _ end] =>
               destruct (filter_config x y)
           end;
    simpl; intros Hok; try discriminate Hok; split; done.
Qed.

End ConstructionCoverage.

(** A model configuration whose list is filtered down to one model. *)
Lemma summarizer_client_matches_config_witness :
  let llm := CfgDict {[ "config_list" := PList [gpt4_config; gpt35_config] ]} in
  let a' := snd (_create_summarizer_client CfgNone llm blank) in
  summarization_client a' = client_of (summarizer_llm_config a')
  /\ summarizer_llm_config a' <> CfgNone.
Proof.
  intros llm.
  apply (summarizer_client_matches_config CfgNone llm blank).
  reflexivity.
Defined.

(** * Further properties of the browsing tools *)

Section ToolCoverage.
Context {T B : Type} `{TextBrowser T B} `{Clock T}.

(** A tool that moves the browser and then formats its state. *)
Lemma moved_reply_run (f : B -> B) (now : T) (s : session B) :
  let b' := f (browser s) in
  exists previously : option T,
    (on_browser f;;
     '(header, content) ← _browser_state now;
     mret (strip header +:+ separator +:+ content)) s
    = (Ok (header_of now previously b' +:+ "=======================" +:+ LF
           +:+ viewport b'),
       with_browser b' s)
    /\ match previously with
       | Some t => exists i, is_latest_prior_visit (history b') (address b') i t
       | None => no_prior_visit (history b') (address b')
       end.
Proof.
  intros b'. subst b'.
  destruct (browser_state_run now (with_browser (f (browser s)) s))
    as (previously & Hrun & Hprev).
  exists previously. split; [|exact Hprev].
  unfold mbind at 1. unfold M_bind, M_bind_def, on_browser, modify.
  cbv beta iota.
  change {| browser := f (browser s); summarizer_calls := summarizer_calls s |}
    with (with_browser (f (browser s)) s).
  unfold mbind, M_bind, M_bind_def. rewrite Hrun.
  unfold mret, M_ret, M_ret_def, separator, header_of. simpl browser.
  rewrite <- !str_app_assoc. by rewrite strip_header_format.
Qed.



(** X12. The address [navigational_web_search] moves on to, if any, starts
    with [http] and holds neither a closing parenthesis nor a line feed:
    the browser ends on the results page or on such an address. *)
Theorem navigational_target_is_http (query : string) (now : T) (s : session B) :
  let results := visit_page ("bing: " +:+ query) (browser s) in
  let final := browser (snd (_navigational_search query now s)) in
  final = results
  \/ exists g, final = visit_page ("http" +:+ g) results
               /\ has_char ")" g = false
               /\ has_char LF_char g = false.
Proof.
  intros results final.
  pose proof (re_search_link_spec (page_content results)) as Hspec.
  assert (final = match re_search_link (page_content results) with
                  | Some target => visit_page target results
                  | None => results
                  end) as ->.
  { subst final. unfold _navigational_search.
    unfold mbind at 1 2 3. unfold M_bind, M_bind_def, on_browser, modify, get_state.
    simpl. fold results.
    destruct (re_search_link (page_content results)) as [t|].
    - destruct (moved_reply_run (fun _ => visit_page t results) now
                  (with_browser results s)) as (p & Hrun & _).
      unfold mbind at 1 in Hrun. unfold M_bind, M_bind_def, on_browser, modify in Hrun.
      simpl in Hrun. simpl. by rewrite Hrun.
    - destruct (moved_reply_run (fun b => b) now (with_browser results s))
        as (p & Hrun & _).
      unfold mbind at 1 in Hrun. unfold M_bind, M_bind_def, on_browser, modify in Hrun.
      simpl in Hrun. simpl. by rewrite Hrun. }
  destruct (re_search_link (page_content results)) as [t|]; [right | by left].
  destruct Hspec as (pre & text & g & post & (_ & _ & Hl) & -> & Hp & _).
  by exists g.
Qed.



End ToolCoverage.



(** * Further properties of the summarization tools *)

Lemma all_space_app (a b : string) :
  all_space (a +:+ b) = all_space a && all_space b.
Proof.
  induction a as [|c a IH]; [reflexivity|].
  rewrite str_app_cons. simpl. rewrite IH. by rewrite andb_assoc.
Qed.

(** A text of whitespace is stripped to nothing. *)
Lemma strip_all_space (s : string) : all_space s = true -> strip s = "".
Proof.
  intros Hs. unfold strip.
  assert (lstrip s = "") as ->; [|reflexivity].
  induction s as [|c s IH]; [reflexivity|].
  simpl in Hs. apply andb_true_iff in Hs as [Hc Hs]. simpl. rewrite Hc. auto.
Qed.

Section SummarizeCoverage.
Context {T B : Type} `{TextBrowser T B} `{TokenCounter} `{SummarizationClient}.

(** What the loop leaves is an initial segment of the content. *)
Lemma raw_buffer_prefix (content : string) :
  exists rest, content = raw_buffer content +:+ rest.
Proof.
  destruct (raw_buffer_spec content) as (k & _ & Hraw & _).
  exists (PyStr.concat (drop k (re_split_line_breaks content))).
  rewrite Hraw, <- concat_take_drop. symmetry. apply concat_re_split.
Qed.

(** X15. Asked about the current page, by no address or by the address the
    browser is on, [read_page_and_answer] does not navigate: the browser is
    left as it was. *)
Theorem read_page_current_page_stays (question url : option string)
    (s : session B) :
  url = None \/ url = Some (address (browser s)) ->
  browser (snd (_read_page_and_answer question url s)) = browser s.
Proof.
  intros Hurl. rewrite read_page_and_answer_run.
  assert (page_read url (browser s) = browser s) as ->.
  { destruct Hurl as [->| ->]; [reflexivity|].
    unfold page_read. by rewrite String.eqb_refl. }
  by destruct (len _ =? 0).
Qed.

(** X16. One call of [read_page_and_answer] makes at most one call to the
    summarization client and keeps the record of the earlier ones: none
    when the stripped buffer is empty, else one, with the system message
    and the prompt built from the question and the buffer. *)
Theorem read_page_at_most_one_call (question url : option string)
    (s : session B) :
  let buffer := summarization_buffer (page_content (page_read url (browser s))) in
  let calls := summarizer_calls (snd (_read_page_and_answer question url s)) in
  (buffer = "" /\ calls = summarizer_calls s)
  \/ (buffer <> ""
      /\ calls = summarizer_calls s ++ [summarizer_messages question buffer]).
Proof.
  intros buffer calls. subst calls. rewrite read_page_and_answer_run.
  fold buffer. destruct (len buffer =? 0) eqn:E.
  - left. by apply len_zero in E.
  - right. split; [|reflexivity]. intros Hb. rewrite Hb in E. discriminate.
Qed.

(** X17. The buffer the loop leaves is within the budget: it is empty, or
    its token count plus the headroom of 1024 does not exceed 32000. *)
Theorem raw_buffer_within_budget (content : string) :
  raw_buffer content = ""
  \/ count_token (raw_buffer content) + 1024 <= 32000.
Proof.
  destruct (raw_buffer_spec content) as (k & _ & Hraw & Hfit & _).
  destruct k as [|k].
  - left. by rewrite Hraw.
  - right. rewrite Hraw. apply Hfit. lia.
Qed.

(** X18. A page that holds nothing but whitespace gives
    [Nothing to summarize.] and no call to the summarization client,
    whatever the counter of tokens. *)
Theorem read_page_blank_page (question url : option string) (s : session B) :
  all_space (page_content (page_read url (browser s))) = true ->
  _read_page_and_answer question url s
  = (Ok "Nothing to summarize.", with_browser (page_read url (browser s)) s).
Proof.
  intros Hblank. rewrite read_page_and_answer_run.
  destruct (raw_buffer_prefix (page_content (page_read url (browser s))))
    as [rest Hrest].
  rewrite Hrest, all_space_app in Hblank.
  apply andb_true_iff in Hblank as [Hraw _].
  unfold summarization_buffer. by rewrite (strip_all_space _ Hraw).
Qed.

(** X19. When the first line of the page alone is over the budget, nothing
    is taken from the page, not even a part of that line: the tool answers
    [Nothing to summarize.] and makes no call. *)
Theorem read_page_first_line_over_budget (question url : option string)
    (s : session B) (first : string) (others : list string) :
  re_split_line_breaks (page_content (page_read url (browser s)))
  = first :: others ->
  count_token first + 1024 > 32000 ->
  raw_buffer (page_content (page_read url (browser s))) = ""
  /\ _read_page_and_answer question url s
     = (Ok "Nothing to summarize.", with_browser (page_read url (browser s)) s).
Proof.
  intros Hsplit Hover.
  assert (raw_buffer (page_content (page_read url (browser s))) = "") as Hraw.
  { unfold raw_buffer. rewrite Hsplit. simpl.
    change ("" +:+ first) with first.
    destruct (count_token first + 1024 >? limit) eqn:E; [reflexivity|].
    unfold limit in E. lia. }
  split; [exact Hraw|].
  rewrite read_page_and_answer_run. unfold summarization_buffer.
  by rewrite Hraw.
Qed.

End SummarizeCoverage.

(** The sample page is read where the browser is. *)
Lemma read_page_current_page_stays_witness :
  browser (snd (_read_page_and_answer None (Some "about:blank") (fresh start_page)))
  = browser (fresh start_page).
Proof.
  apply (read_page_current_page_stays None (Some "about:blank") (fresh start_page)).
  right. reflexivity.
Defined.

(** The sample page of blanks. *)
Lemma read_page_blank_page_witness :
  _read_page_and_answer None (Some "about:spaces") (fresh start_page)
  = (Ok "Nothing to summarize.",
     with_browser (page_read (Some "about:spaces") (browser (fresh start_page)))
       (fresh start_page)).
Proof.
  apply (read_page_blank_page None (Some "about:spaces") (fresh start_page)).
  reflexivity.
Defined.

(** A first line of forty characters at a thousand tokens each. *)
Lemma read_page_first_line_over_budget_witness :
  @raw_buffer heavy_counter
    (page_content (page_read None (browser (fresh long_line_page)))) = ""
  /\ @_read_page_and_answer Z toy_browser toy_TextBrowser heavy_counter
       toy_SummarizationClient (Some "What is it?") None (fresh long_line_page)
     = (Ok "Nothing to summarize.",
        with_browser (page_read None (browser (fresh long_line_page)))
          (fresh long_line_page)).
Proof.
  apply (@read_page_first_line_over_budget Z toy_browser toy_TextBrowser
           heavy_counter toy_SummarizationClient (Some "What is it?") None
           (fresh long_line_page)
           "0123456789012345678901234567890123456789" [LF; "end"]).
  - reflexivity.
  - vm_compute. reflexivity.
Defined.

(** * Further properties of the reply of a turn *)

Section RelayCoverage.
Context {T B W : Type} `{TextBrowser T B} `{InnerAgents B W}.

(** X20. Whenever [generate_surfer_reply] returns, the flag it returns is
    [True]: the reply of the surfer is final, with or without a tool call,
    also when the reply is [None]. *)
Theorem surfer_reply_always_final (messages : option (list pyval))
    (sender : option Agent) (w : W) :
  match fst (generate_surfer_reply messages sender w) with
  | Ok (flag, _) => flag = true
  | Raise _ => True
  end.
Proof.
  unfold generate_surfer_reply, index_last, resolve, subscript, raise.
  step_M. repeat case_match; simplify_eq/=; done.
Qed.

(** X21. With no inbound message the turn raises [IndexError], and it does
    so late: the inner agents have been reset and the reminder has been
    sent before. *)
Theorem surfer_reply_no_message (messages : option (list pyval))
    (sender : option Agent) (w : W) :
  match messages with
  | None => _oai_messages sender w
  | Some m => m
  end = [] ->
  generate_surfer_reply messages sender w
  = (Raise (IndexError "list index out of range"), reminded [] w).
Proof.
  intros Hempty. unfold generate_surfer_reply, index_last.
  step_M. rewrite Hempty. reflexivity.
Qed.

(** X22. When the last inbound message is a dict without a content, the
    turn raises [KeyError] for that key after the reminder has been sent,
    and the message is not sent to the assistant. *)
Theorem surfer_reply_no_content (messages : option (list pyval))
    (sender : option Agent) (w : W) (d : gmap string pyval) :
  let inbound :=
    match messages with
    | None => _oai_messages sender w
    | Some m => m
    end in
  last inbound = Some (PDict d) ->
  d !! "content" = None ->
  generate_surfer_reply messages sender w
  = (Raise (KeyError "content"), reminded inbound w).
Proof.
  intros inbound Hlast Hcontent. unfold generate_surfer_reply, index_last.
  fold inbound. step_M. fold inbound. rewrite Hlast. step_M.
  unfold subscript. rewrite Hcontent. reflexivity.
Qed.

(** X23. A reply of the user proxy that is a dict without a content makes
    the turn raise [KeyError]; the message of the assistant is not used in
    its place. *)
Theorem surfer_reply_tool_result_no_content (messages : option (list pyval))
    (sender : option Agent) (w : W) (d dp : gmap string pyval)
    (content agent_reply : pyval) :
  let inbound :=
    match messages with
    | None => _oai_messages sender w
    | Some m => m
    end in
  last inbound = Some (PDict d) ->
  d !! "content" = Some content ->
  let w2 := dispatched inbound content w in
  last (_user_proxy_chat_messages w2) = Some agent_reply ->
  fst (_user_proxy_generate_reply (_user_proxy_chat_messages w2) w2) = PDict dp ->
  dp !! "content" = None ->
  generate_surfer_reply messages sender w
  = (Raise (KeyError "content"),
     snd (_user_proxy_generate_reply (_user_proxy_chat_messages w2) w2)).
Proof.
  intros inbound Hlast Hcontent w2 Hagent Hproxy Hnone.
  rewrite (generate_surfer_reply_run messages sender w d content agent_reply
             Hlast Hcontent Hagent).
  fold inbound. fold w2. rewrite Hproxy. unfold resolve. simpl.
  unfold mbind, M_bind, M_bind_def, subscript. by rewrite Hnone.
Qed.

End RelayCoverage.

(** A turn without any message. *)
Lemma surfer_reply_no_message_witness :
  generate_surfer_reply (Some []) None (toy_world PNone (PStr ""))
  = (Raise (IndexError "list index out of range"),
     reminded [] (toy_world PNone (PStr ""))).
Proof.
  apply (surfer_reply_no_message (Some []) None (toy_world PNone (PStr ""))).
  reflexivity.
Defined.

(** A last message that holds a role only. *)
Lemma surfer_reply_no_content_witness :
  generate_surfer_reply (Some [PDict {[ "role" := PStr "user" ]}]) None
    (toy_world PNone (PStr ""))
  = (Raise (KeyError "content"),
     reminded [PDict {[ "role" := PStr "user" ]}] (toy_world PNone (PStr ""))).
Proof.
  apply (surfer_reply_no_content (Some [PDict {[ "role" := PStr "user" ]}]) None
           (toy_world PNone (PStr "")) {[ "role" := PStr "user" ]});
    reflexivity.
Defined.

(** A reply of the user proxy that holds a role only. *)
Lemma surfer_reply_tool_result_no_content_witness :
  let w := toy_world (PDict {[ "content" := PStr "hello" ]})
             (PDict {[ "role" := PStr "tool" ]}) in
  generate_surfer_reply (Some [user_message "hi"]) None w
  = (Raise (KeyError "content"), dispatched [user_message "hi"] (PStr "hi") w).
Proof.
  intros w.
  refine (surfer_reply_tool_result_no_content (Some [user_message "hi"]) None w
            {[ "content" := PStr "hi"; "role" := PStr "user" ]}
            {[ "role" := PStr "tool" ]}
            (PStr "hi") (PDict {[ "content" := PStr "hello" ]}) _ _ _ _ _);
    reflexivity.
Defined.

(** * The header on a first visit *)

Section HeaderCoverage.
Context {T B : Type} `{TextBrowser T B} `{Clock T}.

(** X24. With a history of at most one entry the loop of [_browser_state]
    has no index to look at: the header holds the address line, the title
    line if there is a title and the viewport line, and no line on a
    previous visit, even when the one entry is the current address. *)
Theorem first_visit_header (now : T) (s : session B) :
  (length (history (browser s)) <= 1)%nat ->
  _browser_state now s
  = (Ok (header_format (address (browser s)) (page_title (browser s)) None
           (viewport_current_page (browser s))
           (Z.of_nat (length (viewport_pages (browser s)))),
         viewport (browser s)), s).
Proof.
  intros Hshort.
  destruct (browser_state_run now s) as ([t|] & Hrun & Hprev); [|exact Hrun].
  destruct Hprev as (i & Hi & _). lia.
Qed.

End HeaderCoverage.

(** The sample browser on its start page. *)
Lemma first_visit_header_witness :
  _browser_state 25 (fresh start_page)
  = (Ok (header_format "about:blank" None None 0 1, ""), fresh start_page).
Proof.
  refine (first_visit_header 25 (fresh start_page) _). simpl. lia.
Defined.
